(** * Agent-status reconciler of terraform-provider-aws-ext

    A shallow embedding of the two handlers of the Connect agent status
    resource: the legacy-SDK handler (package [connect]:
    [resourceAgentStatusCreate], [resourceAgentStatusRead],
    [resourceAgentStatusUpdate], [AgentStatusParseID]) and the framework
    handler (package [provider]: the methods [Create], [Read], [Update],
    [Delete] of [AgentStatusResource] and [updateAgentStatus]).

    The framework handler is the one with [display_order] and
    [import_on_exists]; src/provider/agent_status.go is an earlier copy of it
    without these two attributes, whose [Read], [Update] and [Delete] are the
    same code.

    The remote service is a client value [conn] whose four operations
    transform an abstract world; every call the handlers issue is appended
    to a call log, so that statements such as "no list call is made" are
    statements about that log. *)

From Stdlib Require Import String Ascii List Bool Arith ZArith Lia.
Import ListNotations.
Local Open Scope string_scope.
Local Open Scope list_scope.

(* ===================================================================== *)
(** ** Go values the handlers manipulate *)
(* ===================================================================== *)

(** A Go [error] as the handlers observe it: the text [%s] prints, and
    whether it is the remote service's not-found signal. *)
Inductive error : Type :=
| NotFoundError (msg : string)
| OtherError (msg : string).

Definition Error (e : error) : string :=
  match e with
  | NotFoundError msg => msg
  | OtherError msg => msg
  end.

(** [fmt.Errorf] with [%s] verbs only: a fresh error value carrying the
    formatted text; the operand is not wrapped. *)
Definition Errorf (msg : string) : error := OtherError msg.

(** Modelled from the spec: [tfresource.NotFound] lives in
    internal/tfresource, which is not among the sources; it recognises the
    "entity not found" signal of a remote call. *)
Definition NotFound (err : option error) : bool :=
  match err with
  | Some (NotFoundError _) => true
  | _ => false
  end.

(** [aws.String] and [aws.ToString]: a [*string] is an [option string]. *)
Definition aws_String (s : string) : option string := Some s.

Definition aws_ToString (p : option string) : string :=
  match p with
  | Some s => s
  | None => ""
  end.

Definition is_nil {A} (p : option A) : bool :=
  match p with
  | Some _ => false
  | None => true
  end.

Definition aws_ToInt32 (p : option Z) : Z :=
  match p with
  | Some v => v
  | None => 0%Z
  end.

(** The framework's attribute values ([types.String], [types.Int32],
    [types.Bool]): null, unknown, or a known value. *)
Inductive Value (A : Type) : Type :=
| Null
| Unknown
| Known (v : A).

Arguments Null {A}.
Arguments Unknown {A}.
Arguments Known {A} v.

Definition IsNull {A} (v : Value A) : bool :=
  match v with Null => true | _ => false end.

Definition IsUnknown {A} (v : Value A) : bool :=
  match v with Unknown => true | _ => false end.

Definition ValueString (v : Value string) : string :=
  match v with Known s => s | _ => "" end.

Definition ValueBool (v : Value bool) : bool :=
  match v with Known b => b | _ => false end.

(** [ValueInt32Pointer]: nil for null, a pointer to 0 for unknown, a
    pointer to the value otherwise. *)
Definition ValueInt32Pointer (v : Value Z) : option Z :=
  match v with
  | Null => None
  | Unknown => Some 0%Z
  | Known n => Some n
  end.

Definition StringValue (s : string) : Value string := Known s.
Definition Int32Value (n : Z) : Value Z := Known n.

(** [conntypes.AgentStatusState] is a string type with two constants. *)
Definition AgentStatusStateEnabled : string := "ENABLED".

(* ===================================================================== *)
(** ** The composite identifier *)
(* ===================================================================== *)

(** Whether byte [c] occurs in [s]. *)
Fixpoint has_byte (c : ascii) (s : string) : bool :=
  match s with
  | EmptyString => false
  | String x rest => Ascii.eqb x c || has_byte c rest
  end.

(** The text before and after the first occurrence of the byte [sep]. *)
Fixpoint cut (sep : ascii) (s : string) : option (string * string) :=
  match s with
  | EmptyString => None
  | String x rest =>
      if Ascii.eqb x sep then Some (EmptyString, rest)
      else match cut sep rest with
           | Some (before, after) => Some (String x before, after)
           | None => None
           end
  end.

(** [strings.SplitN(s, sep, n)] for a one-byte separator and [n >= 0]: at
    most [n] pieces, the last one holding the unsplit remainder. *)
Fixpoint SplitN (s : string) (sep : ascii) (n : nat) : list string :=
  match n with
  | O => []
  | S O => [s]
  | S n' =>
      match cut sep s with
      | None => [s]
      | Some (before, after) => before :: SplitN after sep n'
      end
  end.

Definition colon : ascii := ":"%char.

(** The text of the malformed-identifier error. *)
Definition parse_error (id : string) : error :=
  Errorf ("unexpected format of ID (" ++ id ++ "), expected instanceID:agentStatusID").

(** [AgentStatusParseID]: the three results of the Go function. *)
Definition AgentStatusParseID (id : string) : string * string * option error :=
  let parts := SplitN id colon 2 in
  if negb (Nat.eqb (length parts) 2)
     || String.eqb (nth 0 parts "") ""
     || String.eqb (nth 1 parts "") ""
  then ("", "", Some (parse_error id))
  else (nth 0 parts "", nth 1 parts "", None).

(** The key [resourceAgentStatusCreate] stores:
    [fmt.Sprintf("%s:%s", instanceID, agentStatusID)]. *)
Definition AgentStatusCreateID (instanceID agentStatusID : string) : string :=
  instanceID ++ ":" ++ agentStatusID.

(* ===================================================================== *)
(** ** The remote service: payloads, client, call log *)
(* ===================================================================== *)

(** The fields of the AWS SDK's request and response structs that the
    handlers read or write.  Pointer fields are options.  The legacy
    handler's tags ([getTagsIn], [setTagsOut]) are left out: the helpers are
    not among the sources and no operation below depends on them. *)
Record CreateAgentStatusInput : Type := {
  cai_InstanceId : option string;
  cai_Name : option string;
  cai_State : string;
  cai_Description : option string;
  cai_DisplayOrder : option Z
}.

Record CreateAgentStatusOutput : Type := {
  cao_AgentStatusARN : option string;
  cao_AgentStatusId : option string
}.

Record DescribeAgentStatusInput : Type := {
  dai_AgentStatusId : option string;
  dai_InstanceId : option string
}.

Record AgentStatus : Type := {
  as_AgentStatusARN : option string;
  as_AgentStatusId : option string;
  as_Description : option string;
  as_Name : option string;
  as_State : string;
  as_DisplayOrder : option Z;
  as_Type : string
}.

Record DescribeAgentStatusOutput : Type := {
  dao_AgentStatus : option AgentStatus
}.

Record UpdateAgentStatusInput : Type := {
  uai_AgentStatusId : option string;
  uai_InstanceId : option string;
  uai_Name : option string;
  uai_State : string;
  uai_Description : option string;
  uai_DisplayOrder : option Z
}.

Inductive UpdateAgentStatusOutput : Type :=
| UpdateAgentStatusOutput_empty.

Record ListAgentStatusesInput : Type := {
  lai_InstanceId : option string;
  lai_NextToken : option string
}.

Record AgentStatusSummary : Type := {
  sum_Arn : option string;
  sum_Id : option string;
  sum_Name : option string
}.

Record ListAgentStatusesOutput : Type := {
  lao_AgentStatusSummaryList : list AgentStatusSummary;
  lao_NextToken : option string
}.

(** A Go call [out, err := conn.Op(ctx, input)] yields a pointer and an
    error, each possibly nil, and may change the remote world. *)
Definition Reply (Out : Type) : Type := (option Out * option error)%type.

(** [*connect.Client]: the four operations the handlers consume. *)
Record Client (World : Type) : Type := {
  CreateAgentStatus : CreateAgentStatusInput -> World -> Reply CreateAgentStatusOutput * World;
  DescribeAgentStatus : DescribeAgentStatusInput -> World -> Reply DescribeAgentStatusOutput * World;
  UpdateAgentStatus : UpdateAgentStatusInput -> World -> Reply UpdateAgentStatusOutput * World;
  ListAgentStatuses : ListAgentStatusesInput -> World -> Reply ListAgentStatusesOutput * World
}.

Arguments CreateAgentStatus {World} _ _ _.
Arguments DescribeAgentStatus {World} _ _ _.
Arguments UpdateAgentStatus {World} _ _ _.
Arguments ListAgentStatuses {World} _ _ _.

(** One entry of the call log. *)
Inductive Call : Type :=
| CallCreate (input : CreateAgentStatusInput)
| CallDescribe (input : DescribeAgentStatusInput)
| CallUpdate (input : UpdateAgentStatusInput)
| CallList (input : ListAgentStatusesInput).

Definition is_CallCreate (c : Call) : bool :=
  match c with CallCreate _ => true | _ => false end.

Definition is_CallUpdate (c : Call) : bool :=
  match c with CallUpdate _ => true | _ => false end.

(** What a handler runs against: the remote world and the calls issued so
    far, oldest first. *)
Record Env (World : Type) : Type := {
  world : World;
  calls : list Call
}.

Arguments world {World} _.
Arguments calls {World} _.
Arguments Build_Env {World} _ _.

Definition start {World} (w : World) : Env World := Build_Env w [].

(** How a handler ends: it returns, it dereferences a nil pointer, or the
    model's bound on the pagination loop is used up. *)
Inductive Outcome (A : Type) : Type :=
| Done (a : A)
| Panic
| OutOfFuel.

Arguments Done {A} a.
Arguments Panic {A}.
Arguments OutOfFuel {A}.

(** Handlers are state transformers over [Env]; the log is kept whatever
    the outcome. *)
Definition M (World A : Type) : Type := Env World -> Outcome A * Env World.

Definition ret {World A} (a : A) : M World A := fun e => (Done a, e).

Definition bind {World A B} (m : M World A) (k : A -> M World B) : M World B :=
  fun e =>
    match m e with
    | (Done a, e') => k a e'
    | (Panic, e') => (Panic, e')
    | (OutOfFuel, e') => (OutOfFuel, e')
    end.

Definition panic {World A} : M World A := fun e => (Panic, e).

Definition out_of_fuel {World A} : M World A := fun e => (OutOfFuel, e).

Declare Scope handler_scope.
Delimit Scope handler_scope with handler.

Notation "x <- c ;; k" := (bind c (fun x => k))
  (at level 61, c at next level, right associativity) : handler_scope.
Notation "' p <- c ;; k" := (bind c (fun x => match x with p => k end))
  (at level 61, p pattern, c at next level, right associativity) : handler_scope.

Local Open Scope handler_scope.

(** Dereferencing a pointer the code did not test against nil. *)
Definition deref {World A} (p : option A) : M World A :=
  match p with
  | Some a => ret a
  | None => panic
  end.

(** Issuing a call: the operation runs on the world, the call is logged. *)
Definition invoke {World Out} (op : World -> Reply Out * World) (c : Call) : M World (Reply Out) :=
  fun e =>
    let '(r, w') := op (world e) in
    (Done r, Build_Env w' (calls e ++ [c])).

Definition conn_CreateAgentStatus {World} (conn : Client World) (input : CreateAgentStatusInput) :=
  invoke (CreateAgentStatus conn input) (CallCreate input).

Definition conn_DescribeAgentStatus {World} (conn : Client World) (input : DescribeAgentStatusInput) :=
  invoke (DescribeAgentStatus conn input) (CallDescribe input).

Definition conn_UpdateAgentStatus {World} (conn : Client World) (input : UpdateAgentStatusInput) :=
  invoke (UpdateAgentStatus conn input) (CallUpdate input).

Definition conn_ListAgentStatuses {World} (conn : Client World) (input : ListAgentStatusesInput) :=
  invoke (ListAgentStatuses conn input) (CallList input).

(* ===================================================================== *)
(** ** Diagnostics *)
(* ===================================================================== *)

Inductive Severity : Type :=
| SeverityError
| SeverityWarning.

Record Diagnostic : Type := {
  diag_Severity : Severity;
  diag_Summary : string;
  diag_Detail : string
}.

Definition Diagnostics : Type := list Diagnostic.

Definition NewErrorDiagnostic (summary detail : string) : Diagnostic :=
  {| diag_Severity := SeverityError; diag_Summary := summary; diag_Detail := detail |}.

Definition is_error (d : Diagnostic) : bool :=
  match diag_Severity d with SeverityError => true | SeverityWarning => false end.

Definition HasError (diags : Diagnostics) : bool := existsb is_error diags.

Definition Severity_eqb (a b : Severity) : bool :=
  match a, b with
  | SeverityError, SeverityError => true
  | SeverityWarning, SeverityWarning => true
  | _, _ => false
  end.

Definition Diagnostic_eqb (a b : Diagnostic) : bool :=
  Severity_eqb (diag_Severity a) (diag_Severity b)
  && String.eqb (diag_Summary a) (diag_Summary b)
  && String.eqb (diag_Detail a) (diag_Detail b).

Definition Contains (diags : Diagnostics) (d : Diagnostic) : bool :=
  existsb (Diagnostic_eqb d) diags.

(** The framework's [Diagnostics.Append]: a diagnostic already present is
    not added again. *)
Fixpoint Append (diags : Diagnostics) (more : list Diagnostic) : Diagnostics :=
  match more with
  | [] => diags
  | d :: rest =>
      if Contains diags d then Append diags rest
      else Append (diags ++ [d]) rest
  end.

Definition AddError (diags : Diagnostics) (summary detail : string) : Diagnostics :=
  Append diags [NewErrorDiagnostic summary detail].

(** Modelled from the spec: [sdkdiag.AppendFromErr] and
    [sdkdiag.AppendErrorf] live in internal/errs/sdkdiag, which is not among
    the sources; they surface an error as one more error diagnostic. *)
Definition AppendFromErr (diags : Diagnostics) (err : option error) : Diagnostics :=
  match err with
  | None => diags
  | Some e => diags ++ [NewErrorDiagnostic (Error e) ""]
  end.

Definition AppendErrorf (diags : Diagnostics) (msg : string) : Diagnostics :=
  diags ++ [NewErrorDiagnostic msg ""].

(* ===================================================================== *)
(** ** The legacy-SDK handler (package connect) *)
(* ===================================================================== *)

(** The attributes of the legacy schema that the handler gets and sets. *)
Record ResourceAttrs : Type := {
  attr_arn : string;
  attr_description : string;
  attr_agent_status_id : string;
  attr_instance_id : string;
  attr_name : string;
  attr_state : string
}.

(** [*schema.ResourceData]: the tracking key, the new-resource mark, the
    last known record (what [HasChanges] compares against) and the values
    [Get] returns and [Set] overwrites. *)
Record ResourceData : Type := {
  d_Id : string;
  d_IsNewResource : bool;
  d_prior : ResourceAttrs;
  d_values : ResourceAttrs
}.

Definition SetId (d : ResourceData) (id : string) : ResourceData :=
  {| d_Id := id; d_IsNewResource := d_IsNewResource d;
     d_prior := d_prior d; d_values := d_values d |}.

Definition set_values (d : ResourceData) (v : ResourceAttrs) : ResourceData :=
  {| d_Id := d_Id d; d_IsNewResource := d_IsNewResource d;
     d_prior := d_prior d; d_values := v |}.

(** [d.GetOk(key)] on a string attribute: the value, and whether it is
    not the zero value. *)
Definition GetOk (v : string) : string * bool := (v, negb (String.eqb v "")).

(** [d.HasChanges("name", "description", "state")]. *)
Definition HasChanges_name_description_state (d : ResourceData) : bool :=
  negb (String.eqb (attr_name (d_prior d)) (attr_name (d_values d)))
  || negb (String.eqb (attr_description (d_prior d)) (attr_description (d_values d)))
  || negb (String.eqb (attr_state (d_prior d)) (attr_state (d_values d))).

(** The [d.Set] calls at the end of [resourceAgentStatusRead]; the write
    to the key "type", which the schema does not declare, changes nothing. *)
Definition set_from_AgentStatus (d : ResourceData) (instanceID : string) (a : AgentStatus)
  : ResourceData :=
  set_values d
    {| attr_arn := aws_ToString (as_AgentStatusARN a);
       attr_agent_status_id := aws_ToString (as_AgentStatusId a);
       attr_instance_id := instanceID;
       attr_description := aws_ToString (as_Description a);
       attr_name := aws_ToString (as_Name a);
       attr_state := as_State a |}.

Definition resourceAgentStatusRead {World} (conn : Client World) (d : ResourceData)
  : M World (Diagnostics * ResourceData) :=
  let diags : Diagnostics := [] in
  let '(instanceID, agentStatusID, err) := AgentStatusParseID (d_Id d) in
  match err with
  | Some _ => ret (AppendFromErr diags err, d)
  | None =>
      ' (resp, err) <- conn_DescribeAgentStatus conn
           {| dai_AgentStatusId := aws_String agentStatusID;
              dai_InstanceId := aws_String instanceID |} ;;
      if negb (d_IsNewResource d) && NotFound err then
        ret (diags, SetId d "")
      else
        match err with
        | Some e =>
            ret (AppendFromErr diags
                   (Some (Errorf ("error getting Connect Agent Status (" ++ d_Id d ++ "): "
                                  ++ Error e))), d)
        | None =>
            match resp with
            | None =>
                ret (AppendFromErr diags
                       (Some (Errorf ("error getting Connect Agent Status (" ++ d_Id d
                                      ++ "): empty response"))), d)
            | Some r =>
                match dao_AgentStatus r with
                | None =>
                    ret (AppendFromErr diags
                           (Some (Errorf ("error getting Connect Agent Status (" ++ d_Id d
                                          ++ "): empty response"))), d)
                | Some a => ret (diags, set_from_AgentStatus d instanceID a)
                end
            end
        end
  end.

(** The payload [resourceAgentStatusCreate] builds: the description is
    set only when the record has one; the legacy schema has no display
    order. *)
Definition legacy_create_input (d : ResourceData) : CreateAgentStatusInput :=
  let instanceID := attr_instance_id (d_values d) in
  let name := attr_name (d_values d) in
  let input :=
    {| cai_InstanceId := aws_String instanceID;
       cai_Name := aws_String name;
       cai_State := attr_state (d_values d);
       cai_Description := None;
       cai_DisplayOrder := None |} in
  let '(v, ok) := GetOk (attr_description (d_values d)) in
  if ok then
    {| cai_InstanceId := cai_InstanceId input;
       cai_Name := cai_Name input;
       cai_State := cai_State input;
       cai_Description := aws_String v;
       cai_DisplayOrder := cai_DisplayOrder input |}
  else input.

Definition resourceAgentStatusCreate {World} (conn : Client World) (d : ResourceData)
  : M World (Diagnostics * ResourceData) :=
  let diags : Diagnostics := [] in
  let instanceID := attr_instance_id (d_values d) in
  let name := attr_name (d_values d) in
  let input := legacy_create_input d in
  ' (output, err) <- conn_CreateAgentStatus conn input ;;
  match err with
  | Some e =>
      ret (AppendFromErr diags
             (Some (Errorf ("error creating Connect Agent Status (" ++ name ++ "): "
                            ++ Error e))), d)
  | None =>
      match output with
      | None =>
          ret (AppendFromErr diags
                 (Some (Errorf ("error creating Connect Agent Status (" ++ name
                                ++ "): empty output"))), d)
      | Some o =>
          let d := SetId d (AgentStatusCreateID instanceID (aws_ToString (cao_AgentStatusId o))) in
          ' (more, d) <- resourceAgentStatusRead conn d ;;
          ret (diags ++ more, d)
      end
  end.

Definition resourceAgentStatusUpdate {World} (conn : Client World) (d : ResourceData)
  : M World (Diagnostics * ResourceData) :=
  let diags : Diagnostics := [] in
  let '(instanceID, agentStatusID, err) := AgentStatusParseID (d_Id d) in
  match err with
  | Some _ => ret (AppendFromErr diags err, d)
  | None =>
      if HasChanges_name_description_state d then
        let input :=
          {| uai_AgentStatusId := aws_String agentStatusID;
             uai_InstanceId := aws_String instanceID;
             uai_Name := aws_String (attr_name (d_values d));
             uai_Description := aws_String (attr_description (d_values d));
             uai_State := attr_state (d_values d);
             uai_DisplayOrder := None |} in
        ' (_, err) <- conn_UpdateAgentStatus conn input ;;
        match err with
        | Some e =>
            ret (AppendErrorf diags
                   ("[ERROR] Error updating Agent Status (" ++ d_Id d ++ "): " ++ Error e), d)
        | None =>
            ' (more, d) <- resourceAgentStatusRead conn d ;;
            ret (diags ++ more, d)
        end
      else
        ' (more, d) <- resourceAgentStatusRead conn d ;;
        ret (diags ++ more, d)
  end.

(** [schema.NoopContext], the legacy handler's [DeleteContext]: it returns
    nil diagnostics and does nothing else. *)
Definition NoopContext {World} (d : ResourceData) : M World (Diagnostics * ResourceData) :=
  ret ([], d).

(** What the SDK does around a destroy: it runs the delete handler and,
    unless that reported an error, clears the tracking key. *)
Definition sdk_destroy {World}
  (delete : ResourceData -> M World (Diagnostics * ResourceData)) (d : ResourceData)
  : M World (Diagnostics * ResourceData) :=
  ' (diags, d) <- delete d ;;
  if HasError diags then ret (diags, d) else ret (diags, SetId d "").

(* ===================================================================== *)
(** ** The framework handler (package provider) *)
(* ===================================================================== *)

Record AgentStatusResourceModel : Type := {
  Arn : Value string;
  Description : Value string;
  AgentStatusID : Value string;
  InstanceID : Value string;
  Name : Value string;
  State : Value string;
  DisplayOrder : Value Z;
  ImportOnExists : Value bool
}.

Record AgentStatusResourceIdentityModel : Type := {
  id_Arn : Value string;
  id_AgentStatusID : Value string
}.

(** The identity [Create] saves next to a record. *)
Definition identity_of (data : AgentStatusResourceModel) : AgentStatusResourceIdentityModel :=
  {| id_Arn := Arn data; id_AgentStatusID := AgentStatusID data |}.

(** The assignments [data.AgentStatusID = ...; data.Arn = ...]. *)
Definition set_AgentStatusID_Arn (data : AgentStatusResourceModel) (id arn : Value string)
  : AgentStatusResourceModel :=
  {| Arn := arn; Description := Description data; AgentStatusID := id;
     InstanceID := InstanceID data; Name := Name data; State := State data;
     DisplayOrder := DisplayOrder data; ImportOnExists := ImportOnExists data |}.

(** The part of a response the handler writes: the diagnostics, the state
    to persist (none when removed or never set) and the identity. *)
Record Response : Type := {
  resp_Diagnostics : Diagnostics;
  resp_State : option AgentStatusResourceModel;
  resp_Identity : option AgentStatusResourceIdentityModel
}.

(** The response the host hands to a method: no diagnostics yet, and the
    state and identity it starts from. *)
Definition new_Response (st : option AgentStatusResourceModel)
  (ident : option AgentStatusResourceIdentityModel) : Response :=
  {| resp_Diagnostics := []; resp_State := st; resp_Identity := ident |}.

Definition Diagnostics_Append (resp : Response) (more : Diagnostics) : Response :=
  {| resp_Diagnostics := Append (resp_Diagnostics resp) more;
     resp_State := resp_State resp; resp_Identity := resp_Identity resp |}.

Definition Diagnostics_AddError (resp : Response) (summary detail : string) : Response :=
  {| resp_Diagnostics := AddError (resp_Diagnostics resp) summary detail;
     resp_State := resp_State resp; resp_Identity := resp_Identity resp |}.

(** [resp.State.Set(ctx, &data)], [resp.Identity.Set(ctx, identity)] and
    [resp.State.RemoveResource(ctx)].  The model structs carry one field per
    attribute of their schema, so encoding them returns no diagnostics. *)
Definition State_Set (resp : Response) (data : AgentStatusResourceModel)
  : Response * Diagnostics :=
  ({| resp_Diagnostics := resp_Diagnostics resp; resp_State := Some data;
      resp_Identity := resp_Identity resp |}, []).

Definition Identity_Set (resp : Response) (ident : AgentStatusResourceIdentityModel)
  : Response * Diagnostics :=
  ({| resp_Diagnostics := resp_Diagnostics resp; resp_State := resp_State resp;
      resp_Identity := Some ident |}, []).

Definition State_RemoveResource (resp : Response) : Response :=
  {| resp_Diagnostics := resp_Diagnostics resp; resp_State := None;
     resp_Identity := resp_Identity resp |}.

(** [req.Plan.Get(ctx, &data)] and [req.State.Get(ctx, &data)]: the host
    calls the handlers with a plan or a state that is not null, and every
    field of the struct is a [types] value, so decoding returns no
    diagnostics. *)
Definition Get (src : AgentStatusResourceModel) : AgentStatusResourceModel * Diagnostics :=
  (src, []).

(** The diagnostic of decoding a null value into a plain struct.  The
    framework's detail text goes on with the path and the type names; the
    handlers look at the severity only. *)
Definition null_value_diagnostic : Diagnostic :=
  NewErrorDiagnostic "Value Conversion Error"
    "An unexpected error was encountered trying to build a value. This is always an error in the provider. Please report the following to the provider developer: Received null value, however the target type cannot handle null values.".

(** [req.Identity.Get(ctx, &identity)].  The identity of a request is
    null ([None]) when the stored record has none, for instance a record
    written before the handler had an identity; the target is a plain
    struct, so decoding a null identity fails and leaves the zero value. *)
Definition Identity_Get (src : option AgentStatusResourceIdentityModel)
  : AgentStatusResourceIdentityModel * Diagnostics :=
  match src with
  | Some ident => (ident, [])
  | None => ({| id_Arn := Null; id_AgentStatusID := Null |}, [null_value_diagnostic])
  end.

(** [req.Config.GetAttribute(ctx, path.Root("import_on_exists"), &v)]. *)
Definition GetAttribute_import_on_exists (config : AgentStatusResourceModel)
  : Value bool * Diagnostics :=
  (ImportOnExists config, []).

Record CreateRequest : Type := {
  create_Plan : AgentStatusResourceModel;
  create_Config : AgentStatusResourceModel
}.

Record ReadRequest : Type := {
  read_State : AgentStatusResourceModel;
  read_Identity : option AgentStatusResourceIdentityModel
}.

Record UpdateRequest : Type := {
  update_Plan : AgentStatusResourceModel
}.

Record DeleteRequest : Type := {
  delete_State : AgentStatusResourceModel
}.

(** [AgentStatusResource]: [connect.NewFromConfig(r.config)] is the client
    the configuration determines. *)
Record AgentStatusResource (World : Type) : Type := {
  config : Client World
}.

Arguments config {World} _.

Definition NewFromConfig {World} (cfg : Client World) : Client World := cfg.

(** The payload of [updateAgentStatus]. *)
Definition update_input (data : AgentStatusResourceModel) : UpdateAgentStatusInput :=
  let input :=
    {| uai_AgentStatusId := aws_String (ValueString (AgentStatusID data));
       uai_InstanceId := aws_String (ValueString (InstanceID data));
       uai_Name := aws_String (ValueString (Name data));
       uai_State := ValueString (State data);
       uai_Description := aws_String (ValueString (Description data));
       uai_DisplayOrder := None |} in
  if String.eqb (uai_State input) AgentStatusStateEnabled then
    {| uai_AgentStatusId := uai_AgentStatusId input;
       uai_InstanceId := uai_InstanceId input;
       uai_Name := uai_Name input;
       uai_State := uai_State input;
       uai_Description := uai_Description input;
       uai_DisplayOrder := ValueInt32Pointer (DisplayOrder data) |}
  else input.

Definition updateAgentStatus {World} (data : AgentStatusResourceModel) (conn : Client World)
  : M World (option error) :=
  let input := update_input data in
  ' (_, err) <- conn_UpdateAgentStatus conn input ;;
  ret err.

(** The payload [Create] builds before it looks at [import_on_exists]. *)
Definition create_input (data : AgentStatusResourceModel) : CreateAgentStatusInput :=
  let input :=
    {| cai_InstanceId := aws_String (ValueString (InstanceID data));
       cai_Name := aws_String (ValueString (Name data));
       cai_State := ValueString (State data);
       cai_Description := aws_String (ValueString (Description data));
       cai_DisplayOrder := None |} in
  if String.eqb (cai_State input) AgentStatusStateEnabled then
    {| cai_InstanceId := cai_InstanceId input;
       cai_Name := cai_Name input;
       cai_State := cai_State input;
       cai_Description := cai_Description input;
       cai_DisplayOrder := ValueInt32Pointer (DisplayOrder data) |}
  else input.

(** The body of [Create] under a matching list entry: adopt, update,
    save, and leave [Create]. *)
Definition adopt {World} (conn : Client World) (data : AgentStatusResourceModel)
  (status : AgentStatusSummary) (resp : Response) : M World Response :=
  let data :=
    set_AgentStatusID_Arn data
      (StringValue (aws_ToString (sum_Id status)))
      (StringValue (aws_ToString (sum_Arn status))) in
  updateErr <- updateAgentStatus data conn ;;
  let resp :=
    match updateErr with
    | Some e =>
        Diagnostics_AddError resp "Error updating Connect Agent Status"
          ("Could not update Connect Agent Status, unexpected error: " ++ Error e)
    | None => resp
    end in
  let '(resp, ds) := State_Set resp data in
  let resp := Diagnostics_Append resp ds in
  let ident := {| id_Arn := Arn data; id_AgentStatusID := AgentStatusID data |} in
  let '(resp, ds) := Identity_Set resp ident in
  let resp := Diagnostics_Append resp ds in
  ret resp.

(** [for _, status := range listResponse.AgentStatusSummaryList]: the
    response [Create] returns with when an entry matches, nothing when the
    range ends. *)
Fixpoint range_statuses {World} (conn : Client World) (data : AgentStatusResourceModel)
  (resp : Response) (l : list AgentStatusSummary) : M World (option Response) :=
  match l with
  | [] => ret None
  | status :: rest =>
      if String.eqb (aws_ToString (sum_Name status)) (ValueString (Name data)) then
        resp <- adopt conn data status resp ;;
        ret (Some resp)
      else range_statuses conn data resp rest
  end.

(** How the pagination loop is left: by [Create]'s [return], or by a
    [break] that falls through to the create call. *)
Inductive LoopExit : Type :=
| Returned (resp : Response)
| Broke (resp : Response).

(** The [for] loop over pages.  Go does not bound it; the model runs at
    most [fuel] iterations. *)
Fixpoint list_loop {World} (fuel : nat) (conn : Client World)
  (data : AgentStatusResourceModel) (nextToken : option string) (resp : Response)
  : M World LoopExit :=
  match fuel with
  | O => out_of_fuel
  | S fuel' =>
      let listInput :=
        {| lai_InstanceId := aws_String (ValueString (InstanceID data));
           lai_NextToken := nextToken |} in
      ' (listResponse, listErr) <- conn_ListAgentStatuses conn listInput ;;
      match listErr with
      | Some e =>
          ret (Broke (Diagnostics_AddError resp "Error listing Connect Agent Statuses"
                        ("Could not list Connect Agent Statuses, unexpected error: "
                         ++ Error e)))
      | None =>
          listResponse <- deref listResponse ;;
          found <- range_statuses conn data resp (lao_AgentStatusSummaryList listResponse) ;;
          match found with
          | Some resp => ret (Returned resp)
          | None =>
              let nextToken := lao_NextToken listResponse in
              match nextToken with
              | None => ret (Broke resp)
              | Some _ => list_loop fuel' conn data nextToken resp
              end
          end
      end
  end.

(** The test that guards the adoption scan. *)
Definition scans (importOnExists : Value bool) : bool :=
  IsNull importOnExists || IsUnknown importOnExists || ValueBool importOnExists.

(** [Create] from the call of [CreateAgentStatus] on. *)
Definition create_fresh {World} (conn : Client World) (data : AgentStatusResourceModel)
  (input : CreateAgentStatusInput) (resp : Response) : M World Response :=
  ' (response, err) <- conn_CreateAgentStatus conn input ;;
  match err with
  | Some e =>
      ret (Diagnostics_AddError resp "Error creating Connect Agent Status"
             ("Could not create Connect Agent Status, unexpected error: " ++ Error e))
  | None =>
      response <- deref response ;;
      let data :=
        set_AgentStatusID_Arn data
          (StringValue (aws_ToString (cao_AgentStatusId response)))
          (StringValue (aws_ToString (cao_AgentStatusARN response))) in
      let '(resp, ds) := State_Set resp data in
      let resp := Diagnostics_Append resp ds in
      let ident := {| id_Arn := Arn data; id_AgentStatusID := AgentStatusID data |} in
      let '(resp, ds) := Identity_Set resp ident in
      let resp := Diagnostics_Append resp ds in
      ret resp
  end.

Definition Create {World} (fuel : nat) (r : AgentStatusResource World)
  (req : CreateRequest) (resp : Response) : M World Response :=
  let '(data, ds) := Get (create_Plan req) in
  let resp := Diagnostics_Append resp ds in
  let '(importOnExists, ds) := GetAttribute_import_on_exists (create_Config req) in
  let resp := Diagnostics_Append resp ds in
  if HasError (resp_Diagnostics resp) then ret resp
  else
    let conn := NewFromConfig (config r) in
    let input := create_input data in
    if scans importOnExists then
      exit <- list_loop fuel conn data None resp ;;
      match exit with
      | Returned resp => ret resp
      | Broke resp => create_fresh conn data input resp
      end
    else create_fresh conn data input resp.

Definition Read {World} (r : AgentStatusResource World) (req : ReadRequest) (resp : Response)
  : M World Response :=
  let '(data, ds) := Get (read_State req) in
  let resp := Diagnostics_Append resp ds in
  if HasError (resp_Diagnostics resp) then ret resp
  else
    let '(ident, ds) := Identity_Get (read_Identity req) in
    let resp := Diagnostics_Append resp ds in
    if HasError (resp_Diagnostics resp) then ret resp
    else
      let conn := NewFromConfig (config r) in
      let input :=
        {| dai_AgentStatusId := aws_String (ValueString (AgentStatusID data));
           dai_InstanceId := aws_String (ValueString (InstanceID data)) |} in
      ' (response, err) <- conn_DescribeAgentStatus conn input ;;
      match err with
      | Some e =>
          ret (Diagnostics_AddError resp "Error reading Connect Agent Status"
                 ("Could not read Connect Agent Status, unexpected error: " ++ Error e))
      | None =>
          match response with
          | None => ret (State_RemoveResource resp)
          | Some response =>
              match dao_AgentStatus response with
              | None => ret (State_RemoveResource resp)
              | Some a =>
                  let data :=
                    {| AgentStatusID := StringValue (aws_ToString (as_AgentStatusId a));
                       Arn := StringValue (aws_ToString (as_AgentStatusARN a));
                       Description := StringValue (aws_ToString (as_Description a));
                       Name := StringValue (aws_ToString (as_Name a));
                       State := StringValue (as_State a);
                       InstanceID := InstanceID data;
                       DisplayOrder :=
                         if String.eqb (as_State a) AgentStatusStateEnabled
                            && negb (is_nil (as_DisplayOrder a))
                         then Int32Value (aws_ToInt32 (as_DisplayOrder a))
                         else DisplayOrder data;
                       ImportOnExists := ImportOnExists data |} in
                  let '(resp, ds) := State_Set resp data in
                  ret (Diagnostics_Append resp ds)
              end
          end
      end.

Definition Update {World} (r : AgentStatusResource World) (req : UpdateRequest)
  (resp : Response) : M World Response :=
  let '(data, ds) := Get (update_Plan req) in
  let resp := Diagnostics_Append resp ds in
  if HasError (resp_Diagnostics resp) then ret resp
  else
    let conn := NewFromConfig (config r) in
    err <- updateAgentStatus data conn ;;
    match err with
    | Some e =>
        ret (Diagnostics_AddError resp "Error updating Connect Agent Status"
               ("Could not update Connect Agent Status, unexpected error: " ++ Error e))
    | None =>
        let '(resp, ds) := State_Set resp data in
        ret (Diagnostics_Append resp ds)
    end.

Definition Delete {World} (r : AgentStatusResource World) (req : DeleteRequest)
  (resp : Response) : M World Response :=
  let '(data, ds) := Get (delete_State req) in
  let resp := Diagnostics_Append resp ds in
  if HasError (resp_Diagnostics resp) then ret resp
  else ret resp.

(** What the framework's server does around [Delete]: the response starts
    from the prior state, and a delete that reported no error has the
    state removed. *)
Definition server_DeleteResource {World} (r : AgentStatusResource World)
  (req : DeleteRequest) : M World Response :=
  resp <- Delete r req (new_Response (Some (delete_State req)) None) ;;
  if HasError (resp_Diagnostics resp) then ret resp
  else ret (State_RemoveResource resp).

(* ===================================================================== *)
(** ** An in-memory remote service *)
(* ===================================================================== *)

(** A small Connect instance to run the handlers against: the agent
    statuses it holds, in listing order, and the failures it is set to
    produce: an error per operation, or create and describe replies that
    succeed without a payload.  Listing returns one entry per page; the
    cursor is the offset written in unary. *)
Record Remote : Type := {
  remote_statuses : list AgentStatus;
  remote_list_error : option error;
  remote_create_error : option error;
  remote_update_error : option error;
  remote_empty_replies : bool
}.

Definition set_statuses (w : Remote) (l : list AgentStatus) : Remote :=
  {| remote_statuses := l;
     remote_list_error := remote_list_error w;
     remote_create_error := remote_create_error w;
     remote_update_error := remote_update_error w;
     remote_empty_replies := remote_empty_replies w |}.

Fixpoint unary (n : nat) : string :=
  match n with
  | O => EmptyString
  | S n' => String "x"%char (unary n')
  end.

Definition summary_of (a : AgentStatus) : AgentStatusSummary :=
  {| sum_Arn := as_AgentStatusARN a; sum_Id := as_AgentStatusId a; sum_Name := as_Name a |}.

Definition remote_List (input : ListAgentStatusesInput) (w : Remote)
  : Reply ListAgentStatusesOutput * Remote :=
  match remote_list_error w with
  | Some e => ((None, Some e), w)
  | None =>
      let offset := String.length (aws_ToString (lai_NextToken input)) in
      let page := firstn 1 (skipn offset (remote_statuses w)) in
      let next :=
        if Nat.ltb (S offset) (length (remote_statuses w)) then Some (unary (S offset)) else None in
      ((Some {| lao_AgentStatusSummaryList := map summary_of page; lao_NextToken := next |},
        None), w)
  end.

Definition remote_Create (input : CreateAgentStatusInput) (w : Remote)
  : Reply CreateAgentStatusOutput * Remote :=
  match remote_create_error w with
  | Some e => ((None, Some e), w)
  | None =>
      if remote_empty_replies w then ((None, None), w) else
      let a :=
        {| as_AgentStatusARN := Some "arn:aws:connect:agent-status/new";
           as_AgentStatusId := Some "new";
           as_Description := cai_Description input;
           as_Name := cai_Name input;
           as_State := cai_State input;
           as_DisplayOrder := cai_DisplayOrder input;
           as_Type := "CUSTOM" |} in
      ((Some {| cao_AgentStatusARN := as_AgentStatusARN a;
                cao_AgentStatusId := as_AgentStatusId a |}, None),
       set_statuses w (remote_statuses w ++ [a]))
  end.

Definition has_id (id : option string) (a : AgentStatus) : bool :=
  String.eqb (aws_ToString (as_AgentStatusId a)) (aws_ToString id).

Definition apply_update (input : UpdateAgentStatusInput) (a : AgentStatus) : AgentStatus :=
  if has_id (uai_AgentStatusId input) a then
    {| as_AgentStatusARN := as_AgentStatusARN a;
       as_AgentStatusId := as_AgentStatusId a;
       as_Description := uai_Description input;
       as_Name := uai_Name input;
       as_State := uai_State input;
       as_DisplayOrder := uai_DisplayOrder input;
       as_Type := as_Type a |}
  else a.

Definition remote_Update (input : UpdateAgentStatusInput) (w : Remote)
  : Reply UpdateAgentStatusOutput * Remote :=
  match remote_update_error w with
  | Some e => ((None, Some e), w)
  | None =>
      ((Some UpdateAgentStatusOutput_empty, None),
       set_statuses w (map (apply_update input) (remote_statuses w)))
  end.

Definition remote_Describe (input : DescribeAgentStatusInput) (w : Remote)
  : Reply DescribeAgentStatusOutput * Remote :=
  if remote_empty_replies w then ((None, None), w)
  else
    match find (has_id (dai_AgentStatusId input)) (remote_statuses w) with
    | Some a => ((Some {| dao_AgentStatus := Some a |}, None), w)
    | None => ((None, Some (NotFoundError "ResourceNotFoundException")), w)
    end.

Definition remote_client : Client Remote :=
  {| CreateAgentStatus := remote_Create;
     DescribeAgentStatus := remote_Describe;
     UpdateAgentStatus := remote_Update;
     ListAgentStatuses := remote_List |}.

Definition remote_resource : AgentStatusResource Remote :=
  {| config := remote_client |}.

(** Two statuses of instance "inst": "Lunch" is on the second page. *)
Definition status_available : AgentStatus :=
  {| as_AgentStatusARN := Some "arn:aws:connect:agent-status/a1";
     as_AgentStatusId := Some "a1";
     as_Description := Some "";
     as_Name := Some "Available";
     as_State := "ENABLED";
     as_DisplayOrder := Some 1%Z;
     as_Type := "ROUTABLE" |}.

Definition status_lunch : AgentStatus :=
  {| as_AgentStatusARN := Some "arn:aws:connect:agent-status/a2";
     as_AgentStatusId := Some "a2";
     as_Description := Some "";
     as_Name := Some "Lunch";
     as_State := "DISABLED";
     as_DisplayOrder := None;
     as_Type := "CUSTOM" |}.

Definition healthy : Remote :=
  {| remote_statuses := [status_available; status_lunch];
     remote_list_error := None;
     remote_create_error := None;
     remote_update_error := None;
     remote_empty_replies := false |}.

Definition throttled : error := OtherError "ThrottlingException".

Definition list_failing : Remote :=
  {| remote_statuses := [status_available; status_lunch];
     remote_list_error := Some throttled;
     remote_create_error := None;
     remote_update_error := None;
     remote_empty_replies := false |}.

Definition update_failing : Remote :=
  {| remote_statuses := [status_available; status_lunch];
     remote_list_error := None;
     remote_create_error := None;
     remote_update_error := Some throttled;
     remote_empty_replies := false |}.

Definition hollow : Remote :=
  {| remote_statuses := [status_available; status_lunch];
     remote_list_error := None;
     remote_create_error := None;
     remote_update_error := None;
     remote_empty_replies := true |}.

(** A plan for a status named "Lunch" in instance "inst". *)
Definition plan_lunch (st : string) (importOnExists : Value bool) : AgentStatusResourceModel :=
  {| Arn := Unknown;
     Description := Known "Out for lunch";
     AgentStatusID := Unknown;
     InstanceID := Known "inst";
     Name := Known "Lunch";
     State := Known st;
     DisplayOrder := Known 7%Z;
     ImportOnExists := importOnExists |}.

Definition create_lunch (st : string) (importOnExists : Value bool) : CreateRequest :=
  {| create_Plan := plan_lunch st Null;
     create_Config := plan_lunch st importOnExists |}.

(** The tracked record of "Lunch", as the framework and as the legacy
    handler hold it; [tracked id] is tracked under identifier [id]. *)
Definition tracked (id : string) : AgentStatusResourceModel :=
  {| Arn := Known "arn:aws:connect:agent-status/a2";
     Description := Known "";
     AgentStatusID := Known id;
     InstanceID := Known "inst";
     Name := Known "Lunch";
     State := Known "DISABLED";
     DisplayOrder := Known 1%Z;
     ImportOnExists := Null |}.

Definition read_tracked (id : string) : ReadRequest :=
  {| read_State := tracked id; read_Identity := Some (identity_of (tracked id)) |}.

Definition attrs_lunch (name : string) : ResourceAttrs :=
  {| attr_arn := "arn:aws:connect:agent-status/a2";
     attr_description := "";
     attr_agent_status_id := "a2";
     attr_instance_id := "inst";
     attr_name := name;
     attr_state := "DISABLED" |}.

(** The legacy record of "Lunch" under the identifier [id], with the
    planned name [name]. *)
Definition d_lunch (id name : string) : ResourceData :=
  {| d_Id := AgentStatusCreateID "inst" id;
     d_IsNewResource := false;
     d_prior := attrs_lunch "Lunch";
     d_values := attrs_lunch name |}.

(* ===================================================================== *)
(** ** Vocabulary of the statements *)
(* ===================================================================== *)


(** A describe reply without a payload: a nil response, or a response
    whose [AgentStatus] is nil. *)
Definition empty_describe (out : option DescribeAgentStatusOutput) : bool :=
  match out with
  | None => true
  | Some o => is_nil (dao_AgentStatus o)
  end.

Definition describe_input (instanceID agentStatusID : string) : DescribeAgentStatusInput :=
  {| dai_AgentStatusId := aws_String agentStatusID; dai_InstanceId := aws_String instanceID |}.

Definition read_error_diagnostic (e : error) : Diagnostic :=
  NewErrorDiagnostic "Error reading Connect Agent Status"
    ("Could not read Connect Agent Status, unexpected error: " ++ Error e).

(** [adds P m]: whatever the log is, handler [m] only appends to it, and
    each call it appends has property [P]. *)
Definition adds {World : Type} (P : Call -> Prop) {A : Type} (m : M World A) : Prop :=
  forall e, exists l, calls (snd (m e)) = calls e ++ l /\ Forall P l.

(** A logged call that is no update call. *)
Definition not_update (c : Call) : Prop := is_CallUpdate c = false.

(** The list request of the adoption scan at cursor [tok]. *)
Definition list_input (data : AgentStatusResourceModel) (tok : option string)
  : ListAgentStatusesInput :=
  {| lai_InstanceId := aws_String (ValueString (InstanceID data)); lai_NextToken := tok |}.

(** An entry of a page carries the desired name, compared byte for byte. *)
Definition named (data : AgentStatusResourceModel) (s : AgentStatusSummary) : Prop :=
  aws_ToString (sum_Name s) = ValueString (Name data).

(** [skips conn data tok w log tok' w']: from cursor [tok] in world [w]
    the service serves the pages requested by [log], one after the other;
    each call succeeds, no entry of these pages carries the desired name,
    and each page carries a further cursor; the last one is [tok'], in
    world [w']. *)
Inductive skips {World : Type} (conn : Client World) (data : AgentStatusResourceModel)
  : option string -> World -> list Call -> option string -> World -> Prop :=
| skips_none (tok : option string) (w : World) : skips conn data tok w [] tok w
| skips_page (tok : option string) (w : World) (out : ListAgentStatusesOutput)
    (next : string) (w1 : World) (log : list Call) (tok' : option string) (w' : World) :
    ListAgentStatuses conn (list_input data tok) w = ((Some out, None), w1) ->
    Forall (fun s => ~ named data s) (lao_AgentStatusSummaryList out) ->
    lao_NextToken out = Some next ->
    skips conn data (Some next) w1 log tok' w' ->
    skips conn data tok w (CallList (list_input data tok) :: log) tok' w'.

(** The record after adopting the listed entry [s]. *)
Definition adopted (data : AgentStatusResourceModel) (s : AgentStatusSummary)
  : AgentStatusResourceModel :=
  set_AgentStatusID_Arn data
    (StringValue (aws_ToString (sum_Id s)))
    (StringValue (aws_ToString (sum_Arn s))).

Definition update_error_diagnostic (e : error) : Diagnostic :=
  NewErrorDiagnostic "Error updating Connect Agent Status"
    ("Could not update Connect Agent Status, unexpected error: " ++ Error e).

Definition list_error_diagnostic (e : error) : Diagnostic :=
  NewErrorDiagnostic "Error listing Connect Agent Statuses"
    ("Could not list Connect Agent Statuses, unexpected error: " ++ Error e).


Definition create_error_diagnostic (e : error) : Diagnostic :=
  NewErrorDiagnostic "Error creating Connect Agent Status"
    ("Could not create Connect Agent Status, unexpected error: " ++ Error e).

(** The record after a fresh create answered with [out]. *)
Definition created (data : AgentStatusResourceModel) (out : CreateAgentStatusOutput)
  : AgentStatusResourceModel :=
  set_AgentStatusID_Arn data
    (StringValue (aws_ToString (cao_AgentStatusId out)))
    (StringValue (aws_ToString (cao_AgentStatusARN out))).

(** A response that persists [data] and its identity under the
    diagnostics [diags]. *)
Definition saved (diags : Diagnostics) (data : AgentStatusResourceModel) : Response :=
  {| resp_Diagnostics := diags;
     resp_State := Some data;
     resp_Identity := Some (identity_of data) |}.

(** The diagnostics of the adoption path: the update's error, if any. *)
Definition update_diagnostics (err : option error) : Diagnostics :=
  match err with
  | Some e => [update_error_diagnostic e]
  | None => []
  end.

(* ===================================================================== *)
(** ** Configuration: the resource's [Configure] and the provider *)
(* ===================================================================== *)

(** What travels from the provider to a resource as [ProviderData], an
    [any]: nil, an [aws.Config] value, a pointer to one (possibly nil), or a
    value of another type, of which only the name [%T] prints is kept. *)
Inductive ProviderData (Config : Type) : Type :=
| ProviderData_nil
| ProviderData_Config (cfg : Config)
| ProviderData_ConfigPointer (cfg : option Config)
| ProviderData_other (typeName : string).

Arguments ProviderData_nil {Config}.
Arguments ProviderData_Config {Config} cfg.
Arguments ProviderData_ConfigPointer {Config} cfg.
Arguments ProviderData_other {Config} typeName.

(** What [%T] prints for a provider data value. *)
Definition type_name {Config} (v : ProviderData Config) : string :=
  match v with
  | ProviderData_nil => "<nil>"
  | ProviderData_Config _ => "aws.Config"
  | ProviderData_ConfigPointer _ => "*aws.Config"
  | ProviderData_other t => t
  end.

Definition configure_error_detail {Config} (v : ProviderData Config) : string :=
  "Expected *aws.Config, got: " ++ type_name v
  ++ ". Please report this issue to the provider developers.".

(** [AgentStatusResource.Configure]: the receiver and the response's
    diagnostics, before and after. *)
Definition Configure {World} (r : AgentStatusResource World)
  (providerData : ProviderData (Client World)) (diags : Diagnostics)
  : AgentStatusResource World * Diagnostics :=
  match providerData with
  | ProviderData_nil => (r, diags)
  | ProviderData_Config cfg => ({| config := cfg |}, diags)
  | _ =>
      (r, AddError diags "Unexpected Resource Configure Type"
            (configure_error_detail providerData))
  end.

(** [AgentStatusResource.Metadata]. *)
Definition Metadata (providerTypeName : string) : string :=
  providerTypeName ++ "_connect_agent_status".

Module AwsExtProvider.

(** [AwsExtProviderModel]. *)
Record AwsExtProviderModel : Type := {
  AccessKey : Value string;
  SecretKey : Value string;
  Token : Value string;
  Region : Value string;
  Profile : Value string;
  RoleArn : Value string
}.

(** The load options [Configure] may pass to the AWS SDK:
    [config.WithCredentialsProvider] over static credentials,
    [config.WithSharedConfigProfile] and [config.WithRegion]. *)
Inductive LoadOption : Type :=
| WithStaticCredentialsProvider (key secret session : string)
| WithSharedConfigProfile (profile : string)
| WithRegion (region : string).

(** The two steps [Configure] leaves to the AWS SDK: loading a
    configuration under load options (a configuration and an error, as in
    Go), and replacing a configuration's credentials by the cached
    assume-role provider for a role ARN over an STS client of that
    configuration. *)
Record SDK (Config : Type) : Type := {
  LoadDefaultConfig : list LoadOption -> Config * option error;
  AssumeRole : Config -> string -> Config
}.

Arguments LoadDefaultConfig {Config} _ _.
Arguments AssumeRole {Config} _ _ _.

Record ConfigureResponse (Config : Type) : Type := {
  cr_Diagnostics : Diagnostics;
  cr_ResourceData : ProviderData Config
}.

Arguments cr_Diagnostics {Config} _.
Arguments cr_ResourceData {Config} _.
Arguments Build_ConfigureResponse {Config} _ _.

(** [req.Config.Get(ctx, &data)]. *)
Definition Config_Get (src : AwsExtProviderModel) : AwsExtProviderModel * Diagnostics :=
  (src, []).

(** The slice [addendums] that [Configure] builds. *)
Definition addendums (data : AwsExtProviderModel) : list LoadOption :=
  let addendums : list LoadOption := [] in
  let addendums :=
    if negb (String.eqb (ValueString (AccessKey data)) "")
       && negb (String.eqb (ValueString (SecretKey data)) "")
    then
      addendums ++ [WithStaticCredentialsProvider (ValueString (AccessKey data))
                      (ValueString (SecretKey data)) (ValueString (Token data))]
    else if negb (String.eqb (ValueString (Profile data)) "")
    then addendums ++ [WithSharedConfigProfile (ValueString (Profile data))]
    else addendums in
  if negb (String.eqb (ValueString (Region data)) "")
  then addendums ++ [WithRegion (ValueString (Region data))]
  else addendums.

(** [AwsExtProvider.Configure]. *)
Definition Configure {Config} (sdk : SDK Config) (config : AwsExtProviderModel)
  (resp : ConfigureResponse Config) : ConfigureResponse Config :=
  let '(data, ds) := Config_Get config in
  let resp := Build_ConfigureResponse (Append (cr_Diagnostics resp) ds) (cr_ResourceData resp) in
  if HasError (cr_Diagnostics resp) then resp
  else
    let '(cfg, err) := LoadDefaultConfig sdk (addendums data) in
    match err with
    | Some e =>
        Build_ConfigureResponse
          (AddError (cr_Diagnostics resp) "Failed to load AWS config" (Error e))
          (cr_ResourceData resp)
    | None =>
        let cfg :=
          if negb (String.eqb (ValueString (RoleArn data)) "")
          then AssumeRole sdk cfg (ValueString (RoleArn data))
          else cfg in
        Build_ConfigureResponse (cr_Diagnostics resp) (ProviderData_Config cfg)
    end.

(** The response the host hands to [Configure]. *)
Definition new_ConfigureResponse {Config} : ConfigureResponse Config :=
  Build_ConfigureResponse [] ProviderData_nil.

End AwsExtProvider.

(* ===================================================================== *)
(** ** The earlier copy of the framework handler *)
(* ===================================================================== *)

(** src/provider/agent_status.go: the handler before [display_order] and
    [import_on_exists]; its configuration is a pointer. *)
Module Earlier.

Record AgentStatusResourceModel : Type := {
  Arn : Value string;
  Description : Value string;
  AgentStatusID : Value string;
  InstanceID : Value string;
  Name : Value string;
  State : Value string
}.

Record AgentStatusResource (World : Type) : Type := {
  config : option (Client World)
}.

Arguments config {World} _.
Arguments Build_AgentStatusResource {World} _.

Record Response : Type := {
  resp_Diagnostics : Diagnostics;
  resp_State : option AgentStatusResourceModel
}.

Definition new_Response (st : option AgentStatusResourceModel) : Response :=
  {| resp_Diagnostics := []; resp_State := st |}.

Definition Diagnostics_Append (resp : Response) (more : Diagnostics) : Response :=
  {| resp_Diagnostics := Append (resp_Diagnostics resp) more; resp_State := resp_State resp |}.

Definition Diagnostics_AddError (resp : Response) (summary detail : string) : Response :=
  {| resp_Diagnostics := AddError (resp_Diagnostics resp) summary detail;
     resp_State := resp_State resp |}.

Definition State_Set (resp : Response) (data : AgentStatusResourceModel)
  : Response * Diagnostics :=
  ({| resp_Diagnostics := resp_Diagnostics resp; resp_State := Some data |}, []).

Definition State_RemoveResource (resp : Response) : Response :=
  {| resp_Diagnostics := resp_Diagnostics resp; resp_State := None |}.

Definition Get (src : AgentStatusResourceModel) : AgentStatusResourceModel * Diagnostics :=
  (src, []).

Definition set_AgentStatusID_Arn (data : AgentStatusResourceModel) (id arn : Value string)
  : AgentStatusResourceModel :=
  {| Arn := arn; Description := Description data; AgentStatusID := id;
     InstanceID := InstanceID data; Name := Name data; State := State data |}.

(** [Configure]: the type assertion is to [*aws.Config]. *)
Definition Configure {World} (r : AgentStatusResource World)
  (providerData : ProviderData (Client World)) (diags : Diagnostics)
  : AgentStatusResource World * Diagnostics :=
  match providerData with
  | ProviderData_nil => (r, diags)
  | ProviderData_ConfigPointer cfg => (Build_AgentStatusResource cfg, diags)
  | _ =>
      (r, AddError diags "Unexpected Resource Configure Type"
            (configure_error_detail providerData))
  end.

Definition create_input (data : AgentStatusResourceModel) : CreateAgentStatusInput :=
  {| cai_InstanceId := aws_String (ValueString (InstanceID data));
     cai_Name := aws_String (ValueString (Name data));
     cai_State := ValueString (State data);
     cai_Description := aws_String (ValueString (Description data));
     cai_DisplayOrder := None |}.

Definition update_input (data : AgentStatusResourceModel) : UpdateAgentStatusInput :=
  {| uai_AgentStatusId := aws_String (ValueString (AgentStatusID data));
     uai_InstanceId := aws_String (ValueString (InstanceID data));
     uai_Name := aws_String (ValueString (Name data));
     uai_State := ValueString (State data);
     uai_Description := aws_String (ValueString (Description data));
     uai_DisplayOrder := None |}.

(** [connect.NewFromConfig( *r.config )]: the pointer is dereferenced. *)
Definition Create {World} (r : AgentStatusResource World) (plan : AgentStatusResourceModel)
  (resp : Response) : M World Response :=
  let '(data, ds) := Get plan in
  let resp := Diagnostics_Append resp ds in
  if HasError (resp_Diagnostics resp) then ret resp
  else
    cfg <- deref (config r) ;;
    let conn := NewFromConfig cfg in
    let input := create_input data in
    ' (response, err) <- conn_CreateAgentStatus conn input ;;
    match err with
    | Some e =>
        ret (Diagnostics_AddError resp "Error creating Connect Agent Status"
               ("Could not create Connect Agent Status, unexpected error: " ++ Error e))
    | None =>
        response <- deref response ;;
        let data :=
          set_AgentStatusID_Arn data
            (StringValue (aws_ToString (cao_AgentStatusId response)))
            (StringValue (aws_ToString (cao_AgentStatusARN response))) in
        let '(resp, ds) := State_Set resp data in
        ret (Diagnostics_Append resp ds)
    end.

Definition Read {World} (r : AgentStatusResource World) (state : AgentStatusResourceModel)
  (resp : Response) : M World Response :=
  let '(data, ds) := Get state in
  let resp := Diagnostics_Append resp ds in
  if HasError (resp_Diagnostics resp) then ret resp
  else
    cfg <- deref (config r) ;;
    let conn := NewFromConfig cfg in
    let input :=
      {| dai_AgentStatusId := aws_String (ValueString (AgentStatusID data));
         dai_InstanceId := aws_String (ValueString (InstanceID data)) |} in
    ' (response, err) <- conn_DescribeAgentStatus conn input ;;
    match err with
    | Some e =>
        ret (Diagnostics_AddError resp "Error reading Connect Agent Status"
               ("Could not read Connect Agent Status, unexpected error: " ++ Error e))
    | None =>
        match response with
        | None => ret (State_RemoveResource resp)
        | Some response =>
            match dao_AgentStatus response with
            | None => ret (State_RemoveResource resp)
            | Some a =>
                let data :=
                  {| AgentStatusID := StringValue (aws_ToString (as_AgentStatusId a));
                     Arn := StringValue (aws_ToString (as_AgentStatusARN a));
                     Description := StringValue (aws_ToString (as_Description a));
                     Name := StringValue (aws_ToString (as_Name a));
                     State := StringValue (as_State a);
                     InstanceID := InstanceID data |} in
                let '(resp, ds) := State_Set resp data in
                ret (Diagnostics_Append resp ds)
            end
        end
    end.

Definition Update {World} (r : AgentStatusResource World) (plan : AgentStatusResourceModel)
  (resp : Response) : M World Response :=
  let '(data, ds) := Get plan in
  let resp := Diagnostics_Append resp ds in
  if HasError (resp_Diagnostics resp) then ret resp
  else
    cfg <- deref (config r) ;;
    let conn := NewFromConfig cfg in
    let input := update_input data in
    ' (_, err) <- conn_UpdateAgentStatus conn input ;;
    match err with
    | Some e =>
        ret (Diagnostics_AddError resp "Error updating Connect Agent Status"
               ("Could not update Connect Agent Status, unexpected error: " ++ Error e))
    | None =>
        let '(resp, ds) := State_Set resp data in
        ret (Diagnostics_Append resp ds)
    end.

Definition Delete {World} (r : AgentStatusResource World) (state : AgentStatusResourceModel)
  (resp : Response) : M World Response :=
  let '(data, ds) := Get state in
  let resp := Diagnostics_Append resp ds in
  if HasError (resp_Diagnostics resp) then ret resp
  else ret resp.

End Earlier.

(* ===================================================================== *)
(** ** Further services and vocabulary *)
(* ===================================================================== *)

(** A service whose listing never ends: every page is empty and carries
    a further cursor; the other operations are throttled. *)
Definition endless_client : Client unit :=
  {| CreateAgentStatus := fun _ w => ((None, Some throttled), w);
     DescribeAgentStatus := fun _ w => ((None, Some throttled), w);
     UpdateAgentStatus := fun _ w => ((None, Some throttled), w);
     ListAgentStatuses := fun _ w =>
       ((Some {| lao_AgentStatusSummaryList := []; lao_NextToken := Some "more" |}, None), w) |}.


Definition create_failing : Remote :=
  {| remote_statuses := [status_available];
     remote_list_error := None;
     remote_create_error := Some throttled;
     remote_update_error := None;
     remote_empty_replies := false |}.

(** The in-memory instance before "Lunch" exists, and the entry a create
    of "Lunch" adds to it. *)
Definition without_lunch : Remote := set_statuses healthy [status_available].

Definition created_output : CreateAgentStatusOutput :=
  {| cao_AgentStatusARN := Some "arn:aws:connect:agent-status/new";
     cao_AgentStatusId := Some "new" |}.

(** An SDK that records what it was asked: the configuration is the load
    options and the assumed role, and the shared profile "missing" does
    not load. *)
Definition is_missing_profile (o : AwsExtProvider.LoadOption) : bool :=
  match o with
  | AwsExtProvider.WithSharedConfigProfile p => String.eqb p "missing"
  | _ => false
  end.

Definition profile_error : error := OtherError "failed to get shared config profile, missing".

Definition recording_sdk : AwsExtProvider.SDK (list AwsExtProvider.LoadOption * option string) :=
  {| AwsExtProvider.LoadDefaultConfig := fun opts =>
       if existsb is_missing_profile opts then (([], None), Some profile_error)
       else ((opts, None), None);
     AwsExtProvider.AssumeRole := fun cfg role => (fst cfg, Some role) |}.

(** An SDK whose configurations are clients of the in-memory service. *)
Definition remote_sdk : AwsExtProvider.SDK (Client Remote) :=
  {| AwsExtProvider.LoadDefaultConfig := fun opts =>
       if existsb is_missing_profile opts then (remote_client, Some profile_error)
       else (remote_client, None);
     AwsExtProvider.AssumeRole := fun cfg _ => cfg |}.

Definition provider_config (key secret profile region role : string)
  : AwsExtProvider.AwsExtProviderModel :=
  {| AwsExtProvider.AccessKey := Known key;
     AwsExtProvider.SecretKey := Known secret;
     AwsExtProvider.Token := Null;
     AwsExtProvider.Region := Known region;
     AwsExtProvider.Profile := Known profile;
     AwsExtProvider.RoleArn := Known role |}.

(** A record of the earlier handler. *)
Definition earlier_lunch (st : string) : Earlier.AgentStatusResourceModel :=
  {| Earlier.Arn := Unknown;
     Earlier.Description := Known "Out for lunch";
     Earlier.AgentStatusID := Known "a2";
     Earlier.InstanceID := Known "inst";
     Earlier.Name := Known "Lunch";
     Earlier.State := Known st |}.

(** A legacy record about to be created in instance [instanceID]. *)
Definition d_new (instanceID : string) : ResourceData :=
  {| d_Id := "";
     d_IsNewResource := true;
     d_prior := {| attr_arn := ""; attr_description := ""; attr_agent_status_id := "";
                   attr_instance_id := ""; attr_name := ""; attr_state := "" |};
     d_values := {| attr_arn := ""; attr_description := "Out for lunch";
                    attr_agent_status_id := ""; attr_instance_id := instanceID;
                    attr_name := "Lunch"; attr_state := "ENABLED" |} |}.

(** The diagnostic of a tracking key that does not decode. *)
Definition malformed_key_diagnostic (id : string) : Diagnostic :=
  NewErrorDiagnostic
    ("unexpected format of ID (" ++ id ++ "), expected instanceID:agentStatusID") "".

(** A list call of the scan for [data], at some cursor. *)
Definition scan_call (data : AgentStatusResourceModel) (c : Call) : Prop :=
  exists tok, c = CallList (list_input data tok).

(** What may follow the list calls in the log of [Create]: nothing, one
    update of an adopted entry, or one create. *)
Definition mutation (data : AgentStatusResourceModel) (tail : list Call) : Prop :=
  tail = []
  \/ (exists s, tail = [CallUpdate (update_input (adopted data s))])
  \/ tail = [CallCreate (create_input data)].

Definition create_log (data : AgentStatusResourceModel) (l : list Call) : Prop :=
  exists lists tail, l = lists ++ tail /\ Forall (scan_call data) lists /\ mutation data tail.

(** The record the framework's [Read] saves from the description [a]. *)
Definition refreshed (data : AgentStatusResourceModel) (a : AgentStatus)
  : AgentStatusResourceModel :=
  {| Arn := Known (aws_ToString (as_AgentStatusARN a));
     Description := Known (aws_ToString (as_Description a));
     AgentStatusID := Known (aws_ToString (as_AgentStatusId a));
     InstanceID := InstanceID data;
     Name := Known (aws_ToString (as_Name a));
     State := Known (as_State a);
     DisplayOrder :=
       match as_DisplayOrder a with
       | Some v => if String.eqb (as_State a) "ENABLED" then Known v else DisplayOrder data
       | None => DisplayOrder data
       end;
     ImportOnExists := ImportOnExists data |}.

(* ===================================================================== *)
(** * Properties *)
(* ===================================================================== *)

(** ** The identifier codec *)

Lemma cut_no_sep (sep : ascii) (s : string) :
  has_byte sep s = false -> cut sep s = None.
Proof.
  induction s as [|x rest IH]; simpl; intros H; [reflexivity|].
  apply orb_false_iff in H. destruct H as [Hx Hrest].
  rewrite Hx, (IH Hrest). reflexivity.
Qed.

Lemma cut_at_first_sep (sep : ascii) (before after : string) :
  has_byte sep before = false ->
  cut sep (before ++ String sep after) = Some (before, after).
Proof.
  induction before as [|x rest IH]; simpl; intros H.
  - rewrite Ascii.eqb_refl. reflexivity.
  - apply orb_false_iff in H. destruct H as [Hx Hrest].
    rewrite Hx, (IH Hrest). reflexivity.
Qed.

Lemma cut_some_inv (sep : ascii) (s before after : string) :
  cut sep s = Some (before, after) ->
  s = (before ++ String sep after)%string /\ has_byte sep before = false.
Proof.
  revert before. induction s as [|x rest IH]; simpl; intros before H; [discriminate|].
  destruct (Ascii.eqb x sep) eqn:Hx.
  - apply Ascii.eqb_eq in Hx. inversion H; subst. split; reflexivity.
  - destruct (cut sep rest) as [[b a]|] eqn:Hcut; [|discriminate].
    inversion H; subst. destruct (IH b eq_refl) as [Hs Hb].
    split; simpl; [now rewrite Hs | now rewrite Hx, Hb].
Qed.

Lemma eqb_empty_false (s : string) : s <> "" -> String.eqb s "" = false.
Proof. intros H. apply String.eqb_neq. exact H. Qed.

(** [AgentStatusParseID] on a key that splits at its first colon. *)
Lemma parse_id_split (i a : string) :
  has_byte colon i = false ->
  AgentStatusParseID (i ++ ":" ++ a) =
    if String.eqb i "" || String.eqb a "" then ("", "", Some (parse_error (i ++ ":" ++ a)))
    else (i, a, None).
Proof.
  intros Hi. unfold AgentStatusParseID.
  change (i ++ ":" ++ a)%string with (i ++ String colon a)%string.
  cbn [SplitN]. rewrite (cut_at_first_sep colon i a Hi). reflexivity.
Qed.

(** [AgentStatusParseID] on a key without a colon. *)
Lemma parse_id_no_colon (id : string) :
  has_byte colon id = false ->
  AgentStatusParseID id = ("", "", Some (parse_error id)).
Proof.
  intros H. unfold AgentStatusParseID. cbn [SplitN].
  rewrite (cut_no_sep colon id H). reflexivity.
Qed.

(** Every key either has no colon or splits at its first one. *)
Lemma first_colon (id : string) :
  has_byte colon id = false \/
  exists i a, has_byte colon i = false /\ id = (i ++ ":" ++ a)%string.
Proof.
  destruct (cut colon id) as [[i a]|] eqn:Hcut.
  - right. exists i, a. destruct (cut_some_inv _ _ _ _ Hcut) as [Hs Hi]. split; assumption.
  - left. destruct (has_byte colon id) eqn:Hb; [|reflexivity].
    exfalso. revert Hcut Hb. induction id as [|x rest IH]; simpl; [discriminate|].
    destruct (Ascii.eqb x colon); [discriminate|].
    destruct (cut colon rest) as [[b a]|]; [discriminate|]. simpl. intros _ H. now apply IH.
Qed.

(** C4: for instance and status identifiers that are not empty and hold
    no colon, decoding the composite key [instance_id ++ ":" ++
    agent_status_id] gives back exactly the pair, with no error. *)
Theorem parse_id_create_id_roundtrip (i a : string) :
  i <> "" -> a <> "" ->
  has_byte colon i = false -> has_byte colon a = false ->
  AgentStatusParseID (AgentStatusCreateID i a) = (i, a, None).
Proof.
  intros Hi Ha Hci _. unfold AgentStatusCreateID.
  rewrite (parse_id_split i a Hci).
  rewrite (eqb_empty_false i Hi), (eqb_empty_false a Ha). reflexivity.
Qed.

Lemma parse_id_create_id_roundtrip_witness :
  AgentStatusParseID (AgentStatusCreateID "inst-1" "a2") = ("inst-1", "a2", None).
Proof.
  apply (parse_id_create_id_roundtrip "inst-1" "a2");
    solve [discriminate | reflexivity].
Defined.

(** C5: a key that does not split at its first colon into two non-empty
    parts (it has no colon, or the part before or after its first colon is
    empty) is rejected with the malformed-identifier error. *)
Theorem parse_id_malformed (id : string) :
  (forall i a, has_byte colon i = false -> id = (i ++ ":" ++ a)%string -> i = "" \/ a = "") ->
  AgentStatusParseID id = ("", "", Some (parse_error id)).
Proof.
  intros H. destruct (first_colon id) as [Hno | (i & a & Hi & Hid)].
  - apply parse_id_no_colon. exact Hno.
  - subst id. rewrite (parse_id_split i a Hi).
    destruct (H i a Hi eq_refl) as [E | E]; subst.
    + reflexivity.
    + rewrite orb_true_r. reflexivity.
Qed.

(** A key without a colon has no split at all. *)
Lemma no_colon_no_split (id i a : string) :
  has_byte colon id = false -> has_byte colon i = false ->
  id = (i ++ ":" ++ a)%string -> i = "" \/ a = "".
Proof.
  intros Hid _ E. exfalso. subst id. revert Hid.
  induction i as [|x rest IH]; simpl.
  - discriminate.
  - intros H. apply orb_false_iff in H. destruct H as [_ H]. now apply IH.
Qed.

(** The split at the first colon is unique. *)
Lemma split_unique (i a i' a' : string) :
  has_byte colon i = false -> has_byte colon i' = false ->
  (i ++ ":" ++ a = i' ++ ":" ++ a')%string -> i = i' /\ a = a'.
Proof.
  intros Hi Hi' E.
  pose proof (cut_at_first_sep colon i a Hi) as C.
  pose proof (cut_at_first_sep colon i' a' Hi') as C'.
  change (i ++ String colon a)%string with (i ++ ":" ++ a)%string in C.
  change (i' ++ String colon a')%string with (i' ++ ":" ++ a')%string in C'.
  rewrite E, C' in C. inversion C. split; reflexivity.
Qed.

Lemma parse_id_malformed_witness :
  AgentStatusParseID "abc" = ("", "", Some (parse_error "abc"))
  /\ AgentStatusParseID ":abc" = ("", "", Some (parse_error ":abc"))
  /\ AgentStatusParseID "abc:" = ("", "", Some (parse_error "abc:")).
Proof.
  split; [|split].
  - apply (parse_id_malformed "abc"). intros i a.
    apply no_colon_no_split. reflexivity.
  - apply (parse_id_malformed ":abc"). intros i a Hi E.
    left. exact (proj1 (split_unique i a "" "abc" Hi eq_refl (eq_sym E))).
  - apply (parse_id_malformed "abc:"). intros i a Hi E.
    right. exact (proj2 (split_unique i a "abc" "" Hi eq_refl (eq_sym E))).
Defined.

(** ** Handlers and the call log *)

Section Log.

Context {World : Type}.

Lemma invoke_eq {Out : Type} (op : World -> Reply Out * World) (c : Call)
  (e : Env World) (r : Reply Out) (w' : World) :
  op (world e) = (r, w') ->
  invoke op c e = (Done r, Build_Env w' (calls e ++ [c])).
Proof. intros H. unfold invoke. rewrite H. reflexivity. Qed.

Lemma Diagnostics_Append_nil (resp : Response) : Diagnostics_Append resp [] = resp.
Proof. destruct resp. reflexivity. Qed.

Lemma adds_ret (P : Call -> Prop) {A : Type} (a : A) : adds P (@ret World A a).
Proof. intros e. exists []. split; [symmetry; apply app_nil_r | constructor]. Qed.

Lemma adds_panic (P : Call -> Prop) {A : Type} : adds P (@panic World A).
Proof. intros e. exists []. split; [symmetry; apply app_nil_r | constructor]. Qed.

Lemma adds_out_of_fuel (P : Call -> Prop) {A : Type} : adds P (@out_of_fuel World A).
Proof. intros e. exists []. split; [symmetry; apply app_nil_r | constructor]. Qed.

Lemma adds_bind (P : Call -> Prop) {A B : Type} (m : M World A) (k : A -> M World B) :
  adds P m -> (forall a, adds P (k a)) -> adds P (bind m k).
Proof.
  intros Hm Hk e. unfold bind.
  destruct (Hm e) as (l & Hl & HP). destruct (m e) as [[a| |] e']; simpl in *.
  - destruct (Hk a e') as (l' & Hl' & HP'). exists (l ++ l'). split.
    + rewrite Hl', Hl. symmetry. apply app_assoc.
    + apply Forall_app. split; assumption.
  - exists l. split; assumption.
  - exists l. split; assumption.
Qed.

Lemma adds_invoke (P : Call -> Prop) {Out : Type} (op : World -> Reply Out * World)
  (c : Call) :
  P c -> adds P (invoke op c).
Proof.
  intros Hc e. unfold invoke. destruct (op (world e)) as [r w']. simpl.
  exists [c]. split; [reflexivity | constructor; [exact Hc | constructor]].
Qed.

Lemma adds_deref (P : Call -> Prop) {A : Type} (p : option A) : adds P (@deref World A p).
Proof. destruct p; [apply adds_ret | apply adds_panic]. Qed.

Lemma adds_Forall (P : Call -> Prop) {A : Type} (m : M World A) (e : Env World) :
  adds P m -> Forall P (calls e) -> Forall P (calls (snd (m e))).
Proof.
  intros Hm He. destruct (Hm e) as (l & Hl & HP). rewrite Hl.
  apply Forall_app. split; assumption.
Qed.

(** The first call a handler adds, when it starts by issuing one. *)
Lemma first_call_invoke (P : Call -> Prop) {Out B : Type} (op : World -> Reply Out * World)
  (c : Call) (k : Reply Out -> M World B) :
  (forall a, adds P (k a)) ->
  forall e, exists l, calls (snd (bind (invoke op c) k e)) = calls e ++ c :: l.
Proof.
  intros Hk e. unfold bind, invoke. destruct (op (world e)) as [x w'].
  destruct (Hk x (Build_Env w' (calls e ++ [c]))) as (l & Hl & _).
  exists l. rewrite Hl. cbn [calls]. rewrite <- app_assoc. reflexivity.
Qed.

Lemma first_call_bind (P : Call -> Prop) {A B : Type} (m : M World A) (k : A -> M World B)
  (c : Call) :
  (forall e, exists l, calls (snd (m e)) = calls e ++ c :: l) ->
  (forall a, adds P (k a)) ->
  forall e, exists l, calls (snd (bind m k e)) = calls e ++ c :: l.
Proof.
  intros Hm Hk e. unfold bind. destruct (Hm e) as (l & Hl).
  destruct (m e) as [[a| |] e']; cbn [snd] in *.
  - destruct (Hk a e') as (l' & Hl' & _). exists (l ++ l').
    rewrite Hl', Hl, <- app_assoc. reflexivity.
  - exists l. exact Hl.
  - exists l. exact Hl.
Qed.

Lemma adds_from_start (P : Call -> Prop) {A : Type} (m : M World A) (w : World) :
  adds P m -> Forall P (calls (snd (m (start w)))).
Proof. intros Hm. apply adds_Forall; [exact Hm | constructor]. Qed.

End Log.

(** ** Delete *)

Section DeleteProperties.

Context {World : Type}.
Variable r : AgentStatusResource World.

Lemma Delete_returns (req : DeleteRequest) (resp : Response) (e : Env World) :
  Delete r req resp e = (Done resp, e).
Proof.
  unfold Delete, Get. rewrite Diagnostics_Append_nil.
  destruct (HasError (resp_Diagnostics resp)); reflexivity.
Qed.

(** C9: a delete is a no-op that succeeds.  The framework's [Delete]
    returns the response it was given, and the legacy handler's
    [NoopContext] returns no diagnostics; neither adds a call to the log nor
    changes the remote world, whatever the record, the world and the log
    are.  Around them the host then drops the record: the framework's server
    persists no state, the SDK clears the tracking key. *)
Theorem delete_is_noop (req : DeleteRequest) (resp : Response) (d : ResourceData)
  (e : Env World) :
  Delete r req resp e = (Done resp, e)
  /\ server_DeleteResource r req e
     = (Done (new_Response None None), e)
  /\ NoopContext d e = (Done ([], d), e)
  /\ sdk_destroy NoopContext d e = (Done ([], SetId d ""), e).
Proof.
  split; [apply Delete_returns|].
  split; [|split; reflexivity].
  unfold server_DeleteResource, bind. rewrite Delete_returns. reflexivity.
Qed.

End DeleteProperties.

(** ** Update *)

Section UpdateProperties.

Context {World : Type}.
Variable conn : Client World.
Variable r : AgentStatusResource World.

Lemma legacy_read_no_update (d : ResourceData) :
  adds not_update (resourceAgentStatusRead conn d).
Proof.
  unfold resourceAgentStatusRead.
  destruct (AgentStatusParseID (d_Id d)) as [[instanceID agentStatusID] [perr|]].
  - apply adds_ret.
  - apply adds_bind.
    + apply adds_invoke. reflexivity.
    + intros [resp err].
      destruct (negb (d_IsNewResource d) && NotFound err); [apply adds_ret|].
      destruct err as [e|]; [apply adds_ret|].
      destruct resp as [resp|]; [|apply adds_ret].
      destruct (dao_AgentStatus resp); apply adds_ret.
Qed.

Lemma legacy_read_then_ret_no_update (d : ResourceData) (diags : Diagnostics) :
  adds not_update
    (bind (resourceAgentStatusRead conn d)
          (fun x => match x with (more, d0) => ret (diags ++ more, d0) end)).
Proof.
  apply adds_bind; [apply legacy_read_no_update|].
  intros [more d0]. apply adds_ret.
Qed.

Lemma HasChanges_false (d : ResourceData) :
  attr_name (d_prior d) = attr_name (d_values d) ->
  attr_description (d_prior d) = attr_description (d_values d) ->
  attr_state (d_prior d) = attr_state (d_values d) ->
  HasChanges_name_description_state d = false.
Proof.
  intros Hn Hd Hs. unfold HasChanges_name_description_state.
  rewrite Hn, Hd, Hs, !String.eqb_refl. reflexivity.
Qed.

Lemma HasChanges_true (d : ResourceData) :
  HasChanges_name_description_state d = true ->
  attr_name (d_prior d) <> attr_name (d_values d)
  \/ attr_description (d_prior d) <> attr_description (d_values d)
  \/ attr_state (d_prior d) <> attr_state (d_values d).
Proof.
  unfold HasChanges_name_description_state. intros H.
  apply orb_true_iff in H. destruct H as [H | H].
  - apply orb_true_iff in H. destruct H as [H | H].
    + left. apply String.eqb_neq. now apply negb_true_iff.
    + right. left. apply String.eqb_neq. now apply negb_true_iff.
  - right. right. apply String.eqb_neq. now apply negb_true_iff.
Qed.

Lemma legacy_update_unchanged_no_update (d : ResourceData) :
  HasChanges_name_description_state d = false ->
  adds not_update (resourceAgentStatusUpdate conn d).
Proof.
  intros H. unfold resourceAgentStatusUpdate.
  destruct (AgentStatusParseID (d_Id d)) as [[instanceID agentStatusID] [perr|]].
  - apply adds_ret.
  - rewrite H. apply legacy_read_then_ret_no_update.
Qed.

Lemma framework_update_calls (req : UpdateRequest) (st : option AgentStatusResourceModel)
  (ident : option AgentStatusResourceIdentityModel) (e : Env World) :
  calls (snd (Update r req (new_Response st ident) e))
  = calls e ++ [CallUpdate (update_input (update_Plan req))].
Proof.
  unfold Update, Get, NewFromConfig. simpl.
  unfold updateAgentStatus, bind, conn_UpdateAgentStatus, invoke.
  destruct (UpdateAgentStatus (config r) (update_input (update_Plan req)) (world e))
    as [[out [err|]] w']; reflexivity.
Qed.

(** C8: the legacy handler's update issues [UpdateAgentStatus] only when
    the name, the description or the state differs from the last known
    record: a log that holds an update call comes from a record where one
    of the three differs, and with a well-formed key such a record does
    have the update payload as its first call.  The framework's [Update]
    issues exactly one update call, with the planned record's payload,
    whatever the record is. *)
Theorem update_fires_on_change (d : ResourceData) (req : UpdateRequest)
  (st : option AgentStatusResourceModel) (ident : option AgentStatusResourceIdentityModel)
  (w : World) :
  ((exists input, In (CallUpdate input) (calls (snd (resourceAgentStatusUpdate conn d (start w)))))
   -> attr_name (d_prior d) <> attr_name (d_values d)
      \/ attr_description (d_prior d) <> attr_description (d_values d)
      \/ attr_state (d_prior d) <> attr_state (d_values d))
  /\ (forall instanceID agentStatusID,
        AgentStatusParseID (d_Id d) = (instanceID, agentStatusID, None) ->
        HasChanges_name_description_state d = true ->
        exists rest,
          calls (snd (resourceAgentStatusUpdate conn d (start w)))
          = CallUpdate {| uai_AgentStatusId := Some agentStatusID;
                          uai_InstanceId := Some instanceID;
                          uai_Name := Some (attr_name (d_values d));
                          uai_State := attr_state (d_values d);
                          uai_Description := Some (attr_description (d_values d));
                          uai_DisplayOrder := None |} :: rest)
  /\ calls (snd (Update r req (new_Response st ident) (start w)))
     = [CallUpdate (update_input (update_Plan req))].
Proof.
  split; [|split].
  - intros [input Hin].
    destruct (HasChanges_name_description_state d) eqn:Hch.
    + apply HasChanges_true. exact Hch.
    + exfalso.
      pose proof (adds_from_start _ _ w (legacy_update_unchanged_no_update d Hch)) as Hall.
      rewrite Forall_forall in Hall. specialize (Hall _ Hin). discriminate Hall.
  - intros instanceID agentStatusID Hparse Hch.
    unfold resourceAgentStatusUpdate. rewrite Hparse, Hch.
    unfold bind at 1. unfold conn_UpdateAgentStatus, invoke, aws_String. simpl.
    match goal with |- context [UpdateAgentStatus conn ?i w] =>
      destruct (UpdateAgentStatus conn i w) as [[out [err|]] w1] end.
    + eexists. reflexivity.
    + unfold resourceAgentStatusRead. rewrite Hparse.
      unfold bind, conn_DescribeAgentStatus, invoke. simpl.
      match goal with |- context [DescribeAgentStatus conn ?i w1] =>
        destruct (DescribeAgentStatus conn i w1) as [[resp derr] w2] end.
      destruct (negb (d_IsNewResource d) && NotFound derr); [eexists; reflexivity|].
      destruct derr; [eexists; reflexivity|].
      destruct resp as [resp|]; [|eexists; reflexivity].
      destruct (dao_AgentStatus resp); eexists; reflexivity.
  - rewrite (framework_update_calls req st ident (start w)). reflexivity.
Qed.

End UpdateProperties.

(** ** Create *)

Section CreateProperties.

Context {World : Type}.
Variable r : AgentStatusResource World.
Variable data : AgentStatusResourceModel.

Lemma updateAgentStatus_eq (d : AgentStatusResourceModel) (e : Env World)
  (reply : Reply UpdateAgentStatusOutput) (w' : World) :
  UpdateAgentStatus (config r) (update_input d) (world e) = (reply, w') ->
  updateAgentStatus d (config r) e
  = (Done (snd reply), Build_Env w' (calls e ++ [CallUpdate (update_input d)])).
Proof.
  intros H. unfold updateAgentStatus, bind, conn_UpdateAgentStatus.
  rewrite (invoke_eq _ _ e reply w' H). destruct reply as [out err]. reflexivity.
Qed.

Lemma adopt_eq (s : AgentStatusSummary) (e : Env World)
  (reply : Reply UpdateAgentStatusOutput) (w' : World) :
  UpdateAgentStatus (config r) (update_input (adopted data s)) (world e) = (reply, w') ->
  adopt (config r) data s (new_Response None None) e
  = (Done (saved (update_diagnostics (snd reply)) (adopted data s)),
     Build_Env w' (calls e ++ [CallUpdate (update_input (adopted data s))])).
Proof.
  intros H. unfold adopt, bind. fold (adopted data s).
  rewrite (updateAgentStatus_eq (adopted data s) e reply w' H).
  destruct reply as [out [err|]]; reflexivity.
Qed.

Lemma named_eqb (s : AgentStatusSummary) :
  named data s -> String.eqb (aws_ToString (sum_Name s)) (ValueString (Name data)) = true.
Proof. intros H. apply String.eqb_eq. exact H. Qed.

Lemma not_named_eqb (s : AgentStatusSummary) :
  ~ named data s -> String.eqb (aws_ToString (sum_Name s)) (ValueString (Name data)) = false.
Proof. intros H. apply String.eqb_neq. exact H. Qed.

Lemma range_statuses_no_match (resp : Response) (l : list AgentStatusSummary) (e : Env World) :
  Forall (fun s => ~ named data s) l ->
  range_statuses (config r) data resp l e = (Done None, e).
Proof.
  induction 1 as [|s l Hs Hl IH]; simpl; [reflexivity|].
  rewrite (not_named_eqb s Hs). exact IH.
Qed.

Lemma range_statuses_first_match (resp : Response) (pre post : list AgentStatusSummary)
  (s : AgentStatusSummary) (e : Env World) :
  Forall (fun x => ~ named data x) pre ->
  named data s ->
  range_statuses (config r) data resp (pre ++ s :: post) e
  = bind (adopt (config r) data s resp) (fun resp' => ret (Some resp')) e.
Proof.
  intros Hpre Hs. induction Hpre as [|x pre Hx Hpre IH]; simpl.
  - rewrite (named_eqb s Hs). reflexivity.
  - rewrite (not_named_eqb x Hx). exact IH.
Qed.

(** Pages without a match are skipped one by one. *)
Lemma list_loop_skips (tok : option string) (w : World) (log : list Call)
  (tok' : option string) (w' : World) :
  skips (config r) data tok w log tok' w' ->
  forall (fuel : nat) (resp : Response) (cs : list Call),
    list_loop (length log + fuel) (config r) data tok resp (Build_Env w cs)
    = list_loop fuel (config r) data tok' resp (Build_Env w' (cs ++ log)).
Proof.
  induction 1 as [tok w | tok w out next w1 log tok' w' Hlist Hnone Hnext Hskip IH];
    intros fuel resp cs.
  - simpl. rewrite app_nil_r. reflexivity.
  - cbn [length Nat.add list_loop]. unfold bind at 1. unfold conn_ListAgentStatuses.
    fold (list_input data tok).
    rewrite (invoke_eq _ _ (Build_Env w cs) (Some out, None) w1 Hlist).
    unfold bind at 1. cbn [deref ret]. unfold bind at 1.
    rewrite (range_statuses_no_match resp _ _ Hnone). rewrite Hnext.
    cbn [calls]. rewrite IH. rewrite <- app_assoc. reflexivity.
Qed.

(** The page with the first match: adopt, update and return. *)
Lemma list_loop_match (fuel : nat) (tok : option string) (e : Env World)
  (out : ListAgentStatusesOutput) (w1 : World) (pre post : list AgentStatusSummary)
  (s : AgentStatusSummary) (reply : Reply UpdateAgentStatusOutput) (w2 : World) :
  ListAgentStatuses (config r) (list_input data tok) (world e) = ((Some out, None), w1) ->
  lao_AgentStatusSummaryList out = pre ++ s :: post ->
  Forall (fun x => ~ named data x) pre ->
  named data s ->
  UpdateAgentStatus (config r) (update_input (adopted data s)) w1 = (reply, w2) ->
  list_loop (S fuel) (config r) data tok (new_Response None None) e
  = (Done (Returned (saved (update_diagnostics (snd reply)) (adopted data s))),
     Build_Env w2 (calls e ++ [CallList (list_input data tok);
                               CallUpdate (update_input (adopted data s))])).
Proof.
  intros Hlist Hpage Hpre Hs Hupd.
  cbn [list_loop]. unfold bind at 1. unfold conn_ListAgentStatuses.
  fold (list_input data tok).
  rewrite (invoke_eq _ _ e (Some out, None) w1 Hlist).
  unfold bind at 1. cbn [deref ret]. unfold bind at 1.
  rewrite Hpage, (range_statuses_first_match _ pre post s _ Hpre Hs).
  unfold bind at 1.
  rewrite (adopt_eq s (Build_Env w1 (calls e ++ [CallList (list_input data tok)])) reply w2 Hupd).
  cbn [calls ret].
  rewrite <- app_assoc. reflexivity.
Qed.

(** A page whose list call fails: the error is recorded and the loop is
    left by its [break]. *)
Lemma list_loop_error (fuel : nat) (tok : option string) (resp : Response) (e : Env World)
  (out : option ListAgentStatusesOutput) (err : error) (w1 : World) :
  ListAgentStatuses (config r) (list_input data tok) (world e) = ((out, Some err), w1) ->
  list_loop (S fuel) (config r) data tok resp e
  = (Done (Broke (Diagnostics_AddError resp "Error listing Connect Agent Statuses"
                    ("Could not list Connect Agent Statuses, unexpected error: "
                     ++ Error err))),
     Build_Env w1 (calls e ++ [CallList (list_input data tok)])).
Proof.
  intros Hlist. cbn [list_loop]. unfold bind at 1. unfold conn_ListAgentStatuses.
  fold (list_input data tok).
  rewrite (invoke_eq _ _ e (out, Some err) w1 Hlist). reflexivity.
Qed.

(** The create call and what [Create] does with its reply. *)
Lemma create_fresh_eq (ds : Diagnostics) (input : CreateAgentStatusInput) (e : Env World)
  (reply : Reply CreateAgentStatusOutput) (w' : World) :
  CreateAgentStatus (config r) input (world e) = (reply, w') ->
  create_fresh (config r) data input
    {| resp_Diagnostics := ds; resp_State := None; resp_Identity := None |} e
  = (match reply with
     | (_, Some ce) =>
         Done {| resp_Diagnostics := Append ds [create_error_diagnostic ce];
                 resp_State := None; resp_Identity := None |}
     | (Some out, None) => Done (saved ds (created data out))
     | (None, None) => Panic
     end,
     Build_Env w' (calls e ++ [CallCreate input])).
Proof.
  intros H. unfold create_fresh, bind, conn_CreateAgentStatus.
  rewrite (invoke_eq _ _ e reply w' H).
  destruct reply as [[out|] [ce|]]; reflexivity.
Qed.

Lemma Create_unfold (fuel : nat) (cfg : AgentStatusResourceModel) :
  Create fuel r {| create_Plan := data; create_Config := cfg |} (new_Response None None)
  = if scans (ImportOnExists cfg) then
      bind (list_loop fuel (config r) data None (new_Response None None))
           (fun exit =>
              match exit with
              | Returned resp => ret resp
              | Broke resp => create_fresh (config r) data (create_input data) resp
              end)
    else create_fresh (config r) data (create_input data) (new_Response None None).
Proof. reflexivity. Qed.

(** *** What [Create] may add to the log *)

Section Adds.

Variable P : Call -> Prop.
Hypothesis P_list : forall tok, P (CallList (list_input data tok)).
Hypothesis P_update : forall s, P (CallUpdate (update_input (adopted data s))).
Hypothesis P_create : P (CallCreate (create_input data)).

Lemma adds_updateAgentStatus (d : AgentStatusResourceModel) :
  P (CallUpdate (update_input d)) -> adds P (updateAgentStatus d (config r)).
Proof.
  intros H. unfold updateAgentStatus. apply adds_bind.
  - apply adds_invoke. exact H.
  - intros [out err]. apply adds_ret.
Qed.

Lemma adds_adopt (s : AgentStatusSummary) (resp : Response) :
  adds P (adopt (config r) data s resp).
Proof.
  unfold adopt. apply adds_bind.
  - apply adds_updateAgentStatus. apply P_update.
  - intros err. apply adds_ret.
Qed.

Lemma adds_range_statuses (resp : Response) (l : list AgentStatusSummary) :
  adds P (range_statuses (config r) data resp l).
Proof.
  induction l as [|s l IH]; simpl; [apply adds_ret|].
  destruct (String.eqb _ _); [|exact IH].
  apply adds_bind; [apply adds_adopt | intros resp'; apply adds_ret].
Qed.

Lemma adds_create_fresh (resp : Response) :
  adds P (create_fresh (config r) data (create_input data) resp).
Proof.
  unfold create_fresh. apply adds_bind.
  - apply adds_invoke. exact P_create.
  - intros [out [ce|]]; [apply adds_ret|].
    apply adds_bind; [apply adds_deref | intros out'; apply adds_ret].
Qed.

Lemma adds_list_loop (fuel : nat) :
  forall (tok : option string) (resp : Response),
    adds P (list_loop fuel (config r) data tok resp).
Proof.
  induction fuel as [|fuel IH]; intros tok resp; simpl; [apply adds_out_of_fuel|].
  apply adds_bind.
  - apply adds_invoke. apply (P_list tok).
  - intros [out [err|]]; [apply adds_ret|].
    apply adds_bind; [apply adds_deref|]. intros page.
    apply adds_bind; [apply adds_range_statuses|]. intros [found|]; [apply adds_ret|].
    destruct (lao_NextToken page); [apply IH | apply adds_ret].
Qed.

Lemma adds_after_loop (exit : LoopExit) :
  adds P (match exit with
          | Returned resp => ret resp
          | Broke resp => create_fresh (config r) data (create_input data) resp
          end).
Proof. destruct exit; [apply adds_ret | apply adds_create_fresh]. Qed.


End Adds.

End CreateProperties.

Section CreateClaims.

Context {World : Type}.
Variable r : AgentStatusResource World.
Variable data : AgentStatusResourceModel.
Variable cfg : AgentStatusResourceModel.

Lemma scans_spec (v : Value bool) :
  scans v = true <-> v = Null \/ v = Unknown \/ v = Known true.
Proof.
  destruct v as [| |[|]]; simpl; split; intros H; auto;
    try discriminate; destruct H as [H|[H|H]]; discriminate.
Qed.

Lemma skips_only_lists (tok : option string) (w : World) (log : list Call)
  (tok' : option string) (w' : World) :
  skips (config r) data tok w log tok' w' -> Forall (fun c => is_CallCreate c = false) log.
Proof. induction 1; constructor; [reflexivity | assumption]. Qed.

(** Without the scan, [Create] is its create call. *)
Lemma Create_without_scan (fuel : nat) (w : World) :
  scans (ImportOnExists cfg) = false ->
  calls (snd (Create fuel r {| create_Plan := data; create_Config := cfg |}
                (new_Response None None) (start w)))
  = [CallCreate (create_input data)].
Proof.
  intros H. rewrite Create_unfold, H.
  destruct (CreateAgentStatus (config r) (create_input data) w) as [reply w'] eqn:Hc.
  unfold new_Response. rewrite (create_fresh_eq r data [] _ (start w) reply w' Hc).
  reflexivity.
Qed.

(** With the scan, the first call is the list call without a cursor. *)
Lemma Create_with_scan (fuel : nat) (w : World) :
  scans (ImportOnExists cfg) = true ->
  exists rest,
    calls (snd (Create (S fuel) r {| create_Plan := data; create_Config := cfg |}
                  (new_Response None None) (start w)))
    = CallList (list_input data None) :: rest.
Proof.
  intros H. rewrite Create_unfold, H.
  refine (first_call_bind (fun _ => True) _ _ (CallList (list_input data None)) _ _ (start w)).
  - cbn [list_loop]. fold (list_input data None).
    apply (first_call_invoke (fun _ => True)).
    intros [out [err|]]; [apply adds_ret|].
    apply adds_bind; [apply adds_deref|]. intros page.
    apply adds_bind.
    + apply adds_range_statuses. intros s. exact I.
    + intros [found|]; [apply adds_ret|].
      destruct (lao_NextToken page); [|apply adds_ret].
      apply adds_list_loop; intros; exact I.
  - intros exit. apply adds_after_loop; intros; exact I.
Qed.

(** The scan reaches the page with the first match: the whole run. *)
Lemma Create_adopts (fuel : nat) (w : World) (log : list Call) (tok : option string)
  (w1 : World) (out : ListAgentStatusesOutput) (w2 : World)
  (pre post : list AgentStatusSummary) (s : AgentStatusSummary)
  (reply : Reply UpdateAgentStatusOutput) (w3 : World) :
  scans (ImportOnExists cfg) = true ->
  skips (config r) data None w log tok w1 ->
  length log <= fuel ->
  ListAgentStatuses (config r) (list_input data tok) w1 = ((Some out, None), w2) ->
  lao_AgentStatusSummaryList out = pre ++ s :: post ->
  Forall (fun x => ~ named data x) pre ->
  named data s ->
  UpdateAgentStatus (config r) (update_input (adopted data s)) w2 = (reply, w3) ->
  Create (S fuel) r {| create_Plan := data; create_Config := cfg |}
    (new_Response None None) (start w)
  = (Done (saved (update_diagnostics (snd reply)) (adopted data s)),
     Build_Env w3 (log ++ [CallList (list_input data tok);
                           CallUpdate (update_input (adopted data s))])).
Proof.
  intros Hscan Hskip Hfuel Hlist Hpage Hpre Hs Hupd.
  rewrite Create_unfold, Hscan. unfold bind.
  replace (S fuel) with (length log + S (fuel - length log)) by lia.
  unfold start. rewrite (list_loop_skips r data None w log tok w1 Hskip).
  rewrite (list_loop_match r data (fuel - length log) tok (Build_Env w1 ([] ++ log))
             out w2 pre post s reply w3 Hlist Hpage Hpre Hs Hupd).
  reflexivity.
Qed.

(** The scan reaches a page whose list call fails: the run goes on with
    the create call, under the recorded error. *)
Lemma Create_after_list_error (fuel : nat) (w : World) (log : list Call)
  (tok : option string) (w1 : World) (out : option ListAgentStatusesOutput) (err : error)
  (w2 : World) (reply : Reply CreateAgentStatusOutput) (w3 : World) :
  scans (ImportOnExists cfg) = true ->
  skips (config r) data None w log tok w1 ->
  length log <= fuel ->
  ListAgentStatuses (config r) (list_input data tok) w1 = ((out, Some err), w2) ->
  CreateAgentStatus (config r) (create_input data) w2 = (reply, w3) ->
  Create (S fuel) r {| create_Plan := data; create_Config := cfg |}
    (new_Response None None) (start w)
  = (match reply with
     | (_, Some ce) =>
         Done {| resp_Diagnostics := [list_error_diagnostic err; create_error_diagnostic ce];
                 resp_State := None; resp_Identity := None |}
     | (Some o, None) => Done (saved [list_error_diagnostic err] (created data o))
     | (None, None) => Panic
     end,
     Build_Env w3 (log ++ [CallList (list_input data tok); CallCreate (create_input data)])).
Proof.
  intros Hscan Hskip Hfuel Hlist Hcreate.
  rewrite Create_unfold, Hscan. unfold bind.
  replace (S fuel) with (length log + S (fuel - length log)) by lia.
  unfold start. rewrite (list_loop_skips r data None w log tok w1 Hskip).
  rewrite (list_loop_error r data (fuel - length log) tok (new_Response None None)
             (Build_Env w1 ([] ++ log)) out err w2 Hlist).
  cbn [calls app].
  change (Diagnostics_AddError (new_Response None None) "Error listing Connect Agent Statuses"
            ("Could not list Connect Agent Statuses, unexpected error: " ++ Error err))
    with {| resp_Diagnostics := [list_error_diagnostic err];
            resp_State := None; resp_Identity := None |}.
  rewrite (create_fresh_eq r data [list_error_diagnostic err] (create_input data)
             (Build_Env w2 (log ++ [CallList (list_input data tok)])) reply w3 Hcreate).
  cbn [calls]. rewrite <- app_assoc.
  destruct reply as [[o|] [ce|]]; reflexivity.
Qed.

Lemma update_input_fields (d : AgentStatusResourceModel) :
  uai_AgentStatusId (update_input d) = Some (ValueString (AgentStatusID d))
  /\ uai_InstanceId (update_input d) = Some (ValueString (InstanceID d))
  /\ uai_Name (update_input d) = Some (ValueString (Name d))
  /\ uai_State (update_input d) = ValueString (State d)
  /\ uai_Description (update_input d) = Some (ValueString (Description d)).
Proof.
  unfold update_input. cbn [uai_State].
  destruct (String.eqb (ValueString (State d)) AgentStatusStateEnabled);
    repeat split; reflexivity.
Qed.

(** C1: with the planned record [data] and the configuration [cfg],
    [Create] runs the list-and-match scan exactly when [import_on_exists]
    is null, unknown or true.  When it is false the only call is the fresh
    [CreateAgentStatus].  When the scan runs and the pages served before
    hold no entry with the desired name, the first entry [s] of the next
    page whose name equals it byte for byte is adopted: [Create] returns
    with [s]'s identifier and ARN in the saved record and identity, after
    one update call carrying the desired name, state and description under
    the adopted identifier, and without any create call. *)
Theorem create_import_on_exists (fuel : nat) (w : World) :
  let run := Create (S fuel) r {| create_Plan := data; create_Config := cfg |}
               (new_Response None None) (start w) in
  let unset_or_true :=
    ImportOnExists cfg = Null \/ ImportOnExists cfg = Unknown
    \/ ImportOnExists cfg = Known true in
  ((exists input, In (CallList input) (calls (snd run))) <-> unset_or_true)
  /\ (ImportOnExists cfg = Known false ->
      calls (snd run) = [CallCreate (create_input data)])
  /\ (unset_or_true ->
      forall (log : list Call) (tok : option string) (w1 : World)
             (out : ListAgentStatusesOutput) (w2 : World)
             (pre post : list AgentStatusSummary) (s : AgentStatusSummary)
             (reply : Reply UpdateAgentStatusOutput) (w3 : World),
        skips (config r) data None w log tok w1 ->
        length log <= fuel ->
        ListAgentStatuses (config r) (list_input data tok) w1 = ((Some out, None), w2) ->
        lao_AgentStatusSummaryList out = pre ++ s :: post ->
        Forall (fun x => ~ named data x) pre ->
        named data s ->
        UpdateAgentStatus (config r) (update_input (adopted data s)) w2 = (reply, w3) ->
        run = (Done (saved (update_diagnostics (snd reply)) (adopted data s)),
               Build_Env w3 (log ++ [CallList (list_input data tok);
                                     CallUpdate (update_input (adopted data s))]))
        /\ AgentStatusID (adopted data s) = Known (aws_ToString (sum_Id s))
        /\ Arn (adopted data s) = Known (aws_ToString (sum_Arn s))
        /\ uai_AgentStatusId (update_input (adopted data s)) = Some (aws_ToString (sum_Id s))
        /\ uai_Name (update_input (adopted data s)) = Some (ValueString (Name data))
        /\ uai_State (update_input (adopted data s)) = ValueString (State data)
        /\ uai_Description (update_input (adopted data s))
           = Some (ValueString (Description data))
        /\ Forall (fun c => is_CallCreate c = false) (calls (snd run))).
Proof.
  cbv zeta. split; [|split].
  - rewrite <- scans_spec. split.
    + intros [input Hin]. destruct (scans (ImportOnExists cfg)) eqn:Hs; [reflexivity|].
      rewrite (Create_without_scan (S fuel) w Hs) in Hin.
      destruct Hin as [Hin | []]. discriminate Hin.
    + intros Hs. destruct (Create_with_scan fuel w Hs) as (rest & Hrest).
      exists (list_input data None). rewrite Hrest. left. reflexivity.
  - intros Hfalse. apply Create_without_scan. rewrite Hfalse. reflexivity.
  - intros Hs log tok w1 out w2 pre post s reply w3 Hskip Hfuel Hlist Hpage Hpre Hnamed Hupd.
    apply scans_spec in Hs.
    rewrite (Create_adopts fuel w log tok w1 out w2 pre post s reply w3
               Hs Hskip Hfuel Hlist Hpage Hpre Hnamed Hupd).
    destruct (update_input_fields (adopted data s)) as (Hid & _ & Hname & Hstate & Hdesc).
    repeat (split; [first [reflexivity | assumption]|]).
    cbn [snd calls]. apply Forall_app. split.
    + apply (skips_only_lists None w log tok w1 Hskip).
    + repeat constructor.
Qed.

(** C7: on the adopt-then-update path, when the update call fails with
    [e], [Create] still returns a response that persists the record with
    the adopted identifier and ARN (and the matching identity); the failure
    is surfaced as the one error diagnostic of the response. *)
Theorem adopted_id_kept_when_update_fails (fuel : nat) (w : World) (log : list Call)
  (tok : option string) (w1 : World) (out : ListAgentStatusesOutput) (w2 : World)
  (pre post : list AgentStatusSummary) (s : AgentStatusSummary)
  (uo : option UpdateAgentStatusOutput) (e : error) (w3 : World) :
  ImportOnExists cfg = Null \/ ImportOnExists cfg = Unknown \/ ImportOnExists cfg = Known true ->
  skips (config r) data None w log tok w1 ->
  length log <= fuel ->
  ListAgentStatuses (config r) (list_input data tok) w1 = ((Some out, None), w2) ->
  lao_AgentStatusSummaryList out = pre ++ s :: post ->
  Forall (fun x => ~ named data x) pre ->
  named data s ->
  UpdateAgentStatus (config r) (update_input (adopted data s)) w2 = ((uo, Some e), w3) ->
  exists (resp : Response) (st : AgentStatusResourceModel),
    fst (Create (S fuel) r {| create_Plan := data; create_Config := cfg |}
           (new_Response None None) (start w)) = Done resp
    /\ resp_Diagnostics resp = [update_error_diagnostic e]
    /\ HasError (resp_Diagnostics resp) = true
    /\ resp_State resp = Some st
    /\ AgentStatusID st = Known (aws_ToString (sum_Id s))
    /\ Arn st = Known (aws_ToString (sum_Arn s))
    /\ resp_Identity resp
       = Some {| id_Arn := Known (aws_ToString (sum_Arn s));
                 id_AgentStatusID := Known (aws_ToString (sum_Id s)) |}.
Proof.
  intros Hs Hskip Hfuel Hlist Hpage Hpre Hnamed Hupd.
  apply scans_spec in Hs.
  rewrite (Create_adopts fuel w log tok w1 out w2 pre post s (uo, Some e) w3
             Hs Hskip Hfuel Hlist Hpage Hpre Hnamed Hupd).
  exists (saved [update_error_diagnostic e] (adopted data s)), (adopted data s).
  repeat split.
Qed.

(** C10: when a list call of the scan fails with [err] (after pages that
    hold no match), [Create] does not stop: the loop is left, no further
    list call follows, and the next and last call is [CreateAgentStatus]
    with the desired payload; every response [Create] then returns carries
    the list error as a diagnostic, next to the saved record when the
    create call succeeds. *)
Theorem list_failure_falls_through_to_create (fuel : nat) (w : World) (log : list Call)
  (tok : option string) (w1 : World) (out : option ListAgentStatusesOutput) (err : error)
  (w2 : World) (reply : Reply CreateAgentStatusOutput) (w3 : World) :
  ImportOnExists cfg = Null \/ ImportOnExists cfg = Unknown \/ ImportOnExists cfg = Known true ->
  skips (config r) data None w log tok w1 ->
  length log <= fuel ->
  ListAgentStatuses (config r) (list_input data tok) w1 = ((out, Some err), w2) ->
  CreateAgentStatus (config r) (create_input data) w2 = (reply, w3) ->
  let run := Create (S fuel) r {| create_Plan := data; create_Config := cfg |}
               (new_Response None None) (start w) in
  calls (snd run)
  = log ++ [CallList (list_input data tok); CallCreate (create_input data)]
  /\ world (snd run) = w3
  /\ (forall resp, fst run = Done resp ->
        In (list_error_diagnostic err) (resp_Diagnostics resp))
  /\ (forall o, reply = (Some o, None) ->
        fst run = Done (saved [list_error_diagnostic err] (created data o)))
  /\ (forall o ce, reply = (o, Some ce) ->
        fst run = Done {| resp_Diagnostics :=
                            [list_error_diagnostic err; create_error_diagnostic ce];
                          resp_State := None; resp_Identity := None |}).
Proof.
  intros Hs Hskip Hfuel Hlist Hcreate. cbv zeta.
  apply scans_spec in Hs.
  rewrite (Create_after_list_error fuel w log tok w1 out err w2 reply w3
             Hs Hskip Hfuel Hlist Hcreate).
  cbn [fst snd calls world]. repeat split.
  - intros resp. destruct reply as [[o|] [ce|]]; intros H; inversion H; subst;
      left; reflexivity.
  - intros o H. rewrite H. reflexivity.
  - intros o ce H. rewrite H. destruct o; reflexivity.
Qed.





End CreateClaims.

(** ** Read and the replies without a payload *)

Section ReadProperties.

Context {World : Type}.
Variable conn : Client World.
Variable r : AgentStatusResource World.

(** The legacy read drops a record that is not new when the describe
    call signals not-found. *)
Lemma legacy_read_not_found (d : ResourceData) (e : Env World) (i a : string)
  (out : option DescribeAgentStatusOutput) (err : option error) (w' : World) :
  AgentStatusParseID (d_Id d) = (i, a, None) ->
  DescribeAgentStatus conn (describe_input i a) (world e) = ((out, err), w') ->
  d_IsNewResource d = false ->
  NotFound err = true ->
  resourceAgentStatusRead conn d e
  = (Done ([], SetId d ""), Build_Env w' (calls e ++ [CallDescribe (describe_input i a)])).
Proof.
  intros Hparse Hdesc Hnew Hnf. unfold resourceAgentStatusRead. rewrite Hparse.
  unfold bind, conn_DescribeAgentStatus. fold (describe_input i a).
  rewrite (invoke_eq _ _ e (out, err) w' Hdesc). rewrite Hnew, Hnf. reflexivity.
Qed.

(** Every other failure of the describe call is an error of the legacy
    read. *)
Lemma legacy_read_failure (d : ResourceData) (e : Env World) (i a : string)
  (out : option DescribeAgentStatusOutput) (err : error) (w' : World) :
  AgentStatusParseID (d_Id d) = (i, a, None) ->
  DescribeAgentStatus conn (describe_input i a) (world e) = ((out, Some err), w') ->
  d_IsNewResource d = true \/ NotFound (Some err) = false ->
  resourceAgentStatusRead conn d e
  = (Done ([NewErrorDiagnostic
              ("error getting Connect Agent Status (" ++ d_Id d ++ "): " ++ Error err) ""], d),
     Build_Env w' (calls e ++ [CallDescribe (describe_input i a)])).
Proof.
  intros Hparse Hdesc Hcase. unfold resourceAgentStatusRead. rewrite Hparse.
  unfold bind, conn_DescribeAgentStatus. fold (describe_input i a).
  rewrite (invoke_eq _ _ e (out, Some err) w' Hdesc).
  destruct Hcase as [H | H]; rewrite H; [reflexivity|].
  rewrite andb_false_r. reflexivity.
Qed.

Lemma legacy_read_empty (d : ResourceData) (e : Env World) (i a : string)
  (out : option DescribeAgentStatusOutput) (w' : World) :
  AgentStatusParseID (d_Id d) = (i, a, None) ->
  DescribeAgentStatus conn (describe_input i a) (world e) = ((out, None), w') ->
  empty_describe out = true ->
  resourceAgentStatusRead conn d e
  = (Done ([NewErrorDiagnostic
              ("error getting Connect Agent Status (" ++ d_Id d ++ "): empty response") ""], d),
     Build_Env w' (calls e ++ [CallDescribe (describe_input i a)])).
Proof.
  intros Hparse Hdesc Hempty. unfold resourceAgentStatusRead. rewrite Hparse.
  unfold bind, conn_DescribeAgentStatus. fold (describe_input i a).
  rewrite (invoke_eq _ _ e (out, None) w' Hdesc).
  cbn [NotFound]. rewrite andb_false_r.
  destruct out as [o|]; [|reflexivity].
  cbn [empty_describe] in Hempty. destruct (dao_AgentStatus o); [discriminate|reflexivity].
Qed.

Lemma legacy_create_empty (d : ResourceData) (e : Env World) (w' : World) :
  CreateAgentStatus conn (legacy_create_input d) (world e) = ((None, None), w') ->
  resourceAgentStatusCreate conn d e
  = (Done ([NewErrorDiagnostic
              ("error creating Connect Agent Status (" ++ attr_name (d_values d)
               ++ "): empty output") ""], d),
     Build_Env w' (calls e ++ [CallCreate (legacy_create_input d)])).
Proof.
  intros Hcreate. unfold resourceAgentStatusCreate, bind, conn_CreateAgentStatus.
  rewrite (invoke_eq _ _ e (None, None) w' Hcreate). reflexivity.
Qed.

(** The framework's read reports every error of the describe call, the
    not-found signal included, and keeps the record. *)
Lemma framework_read_failure (req : ReadRequest) (st : option AgentStatusResourceModel)
  (ident : option AgentStatusResourceIdentityModel) (e : Env World)
  (out : option DescribeAgentStatusOutput) (err : error) (w' : World) :
  let input := describe_input (ValueString (InstanceID (read_State req)))
                 (ValueString (AgentStatusID (read_State req))) in
  read_Identity req <> None ->
  DescribeAgentStatus (config r) input (world e) = ((out, Some err), w') ->
  Read r req (new_Response st ident) e
  = (Done {| resp_Diagnostics := [read_error_diagnostic err];
             resp_State := st; resp_Identity := ident |},
     Build_Env w' (calls e ++ [CallDescribe input])).
Proof.
  intros input Hid Hdesc. unfold Read, Get, Identity_Get, NewFromConfig.
  destruct (read_Identity req) as [i|]; [|contradiction Hid; reflexivity]. cbn.
  unfold bind, conn_DescribeAgentStatus. fold input.
  rewrite (invoke_eq _ _ e (out, Some err) w' Hdesc). reflexivity.
Qed.

(** The framework's read drops the record on a reply without a payload
    and reports nothing. *)
Lemma framework_read_empty (req : ReadRequest) (st : option AgentStatusResourceModel)
  (ident : option AgentStatusResourceIdentityModel) (e : Env World)
  (out : option DescribeAgentStatusOutput) (w' : World) :
  let input := describe_input (ValueString (InstanceID (read_State req)))
                 (ValueString (AgentStatusID (read_State req))) in
  read_Identity req <> None ->
  DescribeAgentStatus (config r) input (world e) = ((out, None), w') ->
  empty_describe out = true ->
  Read r req (new_Response st ident) e
  = (Done {| resp_Diagnostics := []; resp_State := None; resp_Identity := ident |},
     Build_Env w' (calls e ++ [CallDescribe input])).
Proof.
  intros input Hid Hdesc Hempty. unfold Read, Get, Identity_Get, NewFromConfig.
  destruct (read_Identity req) as [i|]; [|contradiction Hid; reflexivity]. cbn.
  unfold bind, conn_DescribeAgentStatus. fold input.
  rewrite (invoke_eq _ _ e (out, None) w' Hdesc).
  destruct out as [o|]; [|reflexivity].
  cbn [empty_describe] in Hempty. destruct (dao_AgentStatus o); [discriminate|reflexivity].
Qed.

(** C6, as the code has it: when the remote call succeeds with a nil
    response (for the describe call also with a response whose
    [AgentStatus] is nil), the legacy handler's create and read treat it
    like a failed call: each returns one error diagnostic, issues no further
    call and neither changes nor drops the record.  The framework's read,
    once it has decoded the request's identity and issued the describe
    call, instead removes the record from the state and reports no
    diagnostic. *)
Theorem empty_reply_handling (d : ResourceData) (req : ReadRequest)
  (st : option AgentStatusResourceModel) (ident : option AgentStatusResourceIdentityModel)
  (w : World) :
  (forall w', CreateAgentStatus conn (legacy_create_input d) w = ((None, None), w') ->
     resourceAgentStatusCreate conn d (start w)
     = (Done ([NewErrorDiagnostic
                 ("error creating Connect Agent Status (" ++ attr_name (d_values d)
                  ++ "): empty output") ""], d),
        Build_Env w' [CallCreate (legacy_create_input d)]))
  /\ (forall i a out w',
        AgentStatusParseID (d_Id d) = (i, a, None) ->
        DescribeAgentStatus conn (describe_input i a) w = ((out, None), w') ->
        empty_describe out = true ->
        resourceAgentStatusRead conn d (start w)
        = (Done ([NewErrorDiagnostic
                    ("error getting Connect Agent Status (" ++ d_Id d
                     ++ "): empty response") ""], d),
           Build_Env w' [CallDescribe (describe_input i a)]))
  /\ (forall out w',
        read_Identity req <> None ->
        DescribeAgentStatus (config r)
          (describe_input (ValueString (InstanceID (read_State req)))
             (ValueString (AgentStatusID (read_State req)))) w = ((out, None), w') ->
        empty_describe out = true ->
        Read r req (new_Response st ident) (start w)
        = (Done {| resp_Diagnostics := []; resp_State := None; resp_Identity := ident |},
           Build_Env w'
             [CallDescribe (describe_input (ValueString (InstanceID (read_State req)))
                              (ValueString (AgentStatusID (read_State req))))])).
Proof.
  split; [|split].
  - intros w' H. exact (legacy_create_empty d (start w) w' H).
  - intros i a out w' Hparse Hdesc Hempty.
    exact (legacy_read_empty d (start w) i a out w' Hparse Hdesc Hempty).
  - intros out w' Hid Hdesc Hempty.
    exact (framework_read_empty req st ident (start w) out w' Hid Hdesc Hempty).
Qed.

End ReadProperties.

(** ** Runs against the in-memory service *)

Lemma available_not_lunch (st : string) (v : Value bool) :
  ~ named (plan_lunch st v) (summary_of status_available).
Proof. unfold named. simpl. discriminate. Qed.

(** The first page of [w], when it lists "Available" first and nothing
    fails, is skipped by a scan for "Lunch". *)
Lemma skips_first_page (st : string) (v : Value bool) (w : Remote) :
  remote_statuses w = [status_available; status_lunch] ->
  remote_list_error w = None ->
  skips remote_client (plan_lunch st v) None w
    [CallList (list_input (plan_lunch st v) None)] (Some "x") w.
Proof.
  intros Hs He.
  apply (skips_page remote_client (plan_lunch st v) None w
           {| lao_AgentStatusSummaryList := [summary_of status_available];
              lao_NextToken := Some "x" |} "x" w [] (Some "x") w).
  - unfold remote_client, ListAgentStatuses, remote_List. rewrite He, Hs. reflexivity.
  - constructor; [apply available_not_lunch | constructor].
  - reflexivity.
  - apply skips_none.
Qed.

Lemma create_import_on_exists_witness :
  Create 3 remote_resource (create_lunch "ENABLED" Null) (new_Response None None)
    (start healthy)
  = (Done (saved [] (adopted (plan_lunch "ENABLED" Null) (summary_of status_lunch))),
     Build_Env
       (snd (remote_Update
               (update_input (adopted (plan_lunch "ENABLED" Null) (summary_of status_lunch)))
               healthy))
       [CallList (list_input (plan_lunch "ENABLED" Null) None);
        CallList (list_input (plan_lunch "ENABLED" Null) (Some "x"));
        CallUpdate
          (update_input (adopted (plan_lunch "ENABLED" Null) (summary_of status_lunch)))])
  /\ calls (snd (Create 3 remote_resource (create_lunch "ENABLED" (Known false))
                   (new_Response None None) (start healthy)))
     = [CallCreate (create_input (plan_lunch "ENABLED" Null))].
Proof.
  split.
  - pose proof (create_import_on_exists remote_resource (plan_lunch "ENABLED" Null)
                  (plan_lunch "ENABLED" Null) 2 healthy) as H.
    cbv zeta in H. destruct H as (_ & _ & H).
    refine (proj1 (H (or_introl eq_refl)
                     [CallList (list_input (plan_lunch "ENABLED" Null) None)] (Some "x")
                     healthy
                     {| lao_AgentStatusSummaryList := [summary_of status_lunch];
                        lao_NextToken := None |}
                     healthy [] [] (summary_of status_lunch)
                     (Some UpdateAgentStatusOutput_empty, None) _
                     _ _ _ _ _ _ _)).
    + apply skips_first_page; reflexivity.
    + repeat constructor.
    + reflexivity.
    + reflexivity.
    + constructor.
    + reflexivity.
    + reflexivity.
  - pose proof (create_import_on_exists remote_resource (plan_lunch "ENABLED" Null)
                  (plan_lunch "ENABLED" (Known false)) 2 healthy) as H.
    cbv zeta in H. destruct H as (_ & H & _).
    exact (H eq_refl).
Defined.

Lemma adopted_id_kept_when_update_fails_witness :
  exists (resp : Response) (st : AgentStatusResourceModel),
    fst (Create 3 remote_resource (create_lunch "ENABLED" (Known true))
           (new_Response None None) (start update_failing)) = Done resp
    /\ resp_Diagnostics resp = [update_error_diagnostic throttled]
    /\ HasError (resp_Diagnostics resp) = true
    /\ resp_State resp = Some st
    /\ AgentStatusID st = Known "a2"
    /\ Arn st = Known "arn:aws:connect:agent-status/a2"
    /\ resp_Identity resp
       = Some {| id_Arn := Known "arn:aws:connect:agent-status/a2";
                 id_AgentStatusID := Known "a2" |}.
Proof.
  refine (adopted_id_kept_when_update_fails remote_resource (plan_lunch "ENABLED" Null)
            (plan_lunch "ENABLED" (Known true)) 2 update_failing
            [CallList (list_input (plan_lunch "ENABLED" Null) None)] (Some "x")
            update_failing
            {| lao_AgentStatusSummaryList := [summary_of status_lunch];
               lao_NextToken := None |}
            update_failing [] [] (summary_of status_lunch) None throttled update_failing
            (or_intror (or_intror eq_refl)) _ _ _ _ _ _ _).
  - apply skips_first_page; reflexivity.
  - repeat constructor.
  - reflexivity.
  - reflexivity.
  - constructor.
  - reflexivity.
  - reflexivity.
Defined.

Lemma list_failure_falls_through_to_create_witness :
  calls (snd (Create 3 remote_resource (create_lunch "ENABLED" (Known true))
                (new_Response None None) (start list_failing)))
  = [CallList (list_input (plan_lunch "ENABLED" Null) None);
     CallCreate (create_input (plan_lunch "ENABLED" Null))]
  /\ fst (Create 3 remote_resource (create_lunch "ENABLED" (Known true))
            (new_Response None None) (start list_failing))
     = Done (saved [list_error_diagnostic throttled]
               (created (plan_lunch "ENABLED" Null)
                  {| cao_AgentStatusARN := Some "arn:aws:connect:agent-status/new";
                     cao_AgentStatusId := Some "new" |})).
Proof.
  pose proof (list_failure_falls_through_to_create remote_resource
                (plan_lunch "ENABLED" Null) (plan_lunch "ENABLED" (Known true)) 2
                list_failing [] None list_failing None throttled list_failing
                (fst (remote_Create (create_input (plan_lunch "ENABLED" Null)) list_failing))
                (snd (remote_Create (create_input (plan_lunch "ENABLED" Null)) list_failing))
                (or_intror (or_intror eq_refl))
                (skips_none _ _ _ _) (Nat.le_0_l 2) eq_refl eq_refl) as H.
  cbv zeta in H. destruct H as (Hcalls & _ & _ & Hok & _).
  split.
  - exact Hcalls.
  - exact (Hok _ eq_refl).
Defined.


Lemma update_fires_on_change_witness :
  (attr_name (d_prior (d_lunch "a2" "Break")) <> attr_name (d_values (d_lunch "a2" "Break"))
   \/ attr_description (d_prior (d_lunch "a2" "Break"))
      <> attr_description (d_values (d_lunch "a2" "Break"))
   \/ attr_state (d_prior (d_lunch "a2" "Break")) <> attr_state (d_values (d_lunch "a2" "Break")))
  /\ calls (snd (Update remote_resource {| update_Plan := tracked "a2" |}
                   (new_Response (Some (tracked "a2")) None) (start healthy)))
     = [CallUpdate (update_input (tracked "a2"))].
Proof.
  pose proof (update_fires_on_change remote_client remote_resource (d_lunch "a2" "Break")
                {| update_Plan := tracked "a2" |} (Some (tracked "a2")) None healthy) as H.
  destruct H as (Honly & Hfires & Hframework).
  split.
  - apply Honly. destruct (Hfires "inst" "a2" eq_refl eq_refl) as (rest & Hrest).
    eexists. rewrite Hrest. left. reflexivity.
  - exact Hframework.
Defined.

(** C6, as stated, fails on the framework's read: the describe call
    succeeds without a payload, and the read reports no error and drops the
    record it was tracking. *)
Lemma framework_read_drops_on_empty_reply :
  DescribeAgentStatus remote_client (describe_input "inst" "a2") hollow
  = ((None, None), hollow)
  /\ Read remote_resource (read_tracked "a2")
       (new_Response (Some (tracked "a2")) (Some (identity_of (tracked "a2")))) (start hollow)
     = (Done {| resp_Diagnostics := [];
                resp_State := None;
                resp_Identity := Some (identity_of (tracked "a2")) |},
        Build_Env hollow [CallDescribe (describe_input "inst" "a2")])
  /\ HasError [] = false.
Proof. repeat split. Qed.

Lemma empty_reply_handling_witness :
  resourceAgentStatusCreate remote_client (d_lunch "a2" "Lunch") (start hollow)
  = (Done ([NewErrorDiagnostic "error creating Connect Agent Status (Lunch): empty output" ""],
           d_lunch "a2" "Lunch"),
     Build_Env hollow [CallCreate (legacy_create_input (d_lunch "a2" "Lunch"))])
  /\ resourceAgentStatusRead remote_client (d_lunch "a2" "Lunch") (start hollow)
     = (Done ([NewErrorDiagnostic
                 "error getting Connect Agent Status (inst:a2): empty response" ""],
              d_lunch "a2" "Lunch"),
        Build_Env hollow [CallDescribe (describe_input "inst" "a2")])
  /\ Read remote_resource (read_tracked "a2") (new_Response (Some (tracked "a2")) None)
       (start hollow)
     = (Done {| resp_Diagnostics := []; resp_State := None; resp_Identity := None |},
        Build_Env hollow [CallDescribe (describe_input "inst" "a2")]).
Proof.
  pose proof (empty_reply_handling remote_client remote_resource (d_lunch "a2" "Lunch")
                (read_tracked "a2") (Some (tracked "a2")) None hollow) as H.
  destruct H as (Hcreate & Hread & Hframework).
  split; [|split].
  - exact (Hcreate hollow eq_refl).
  - exact (Hread "inst" "a2" None hollow eq_refl eq_refl eq_refl).
  - apply (Hframework None hollow); [discriminate | reflexivity | reflexivity].
Defined.

(** C2 at a record whose remote entity is gone: the describe call
    answers with the not-found signal and the record is not new.  The
    legacy read drops the record and reports nothing; the framework's read
    reports an error and keeps the record in the state. *)
Theorem framework_read_not_found_is_error :
  NotFound (snd (fst (DescribeAgentStatus remote_client (describe_input "inst" "gone") healthy)))
  = true
  /\ d_IsNewResource (d_lunch "gone" "Lunch") = false
  /\ resourceAgentStatusRead remote_client (d_lunch "gone" "Lunch") (start healthy)
     = (Done ([], SetId (d_lunch "gone" "Lunch") ""),
        Build_Env healthy [CallDescribe (describe_input "inst" "gone")])
  /\ Read remote_resource (read_tracked "gone")
       (new_Response (Some (tracked "gone")) (Some (identity_of (tracked "gone"))))
       (start healthy)
     = (Done {| resp_Diagnostics :=
                  [read_error_diagnostic (NotFoundError "ResourceNotFoundException")];
                resp_State := Some (tracked "gone");
                resp_Identity := Some (identity_of (tracked "gone")) |},
        Build_Env healthy [CallDescribe (describe_input "inst" "gone")]).
Proof. repeat split. Qed.

(* ===================================================================== *)
(** * Further properties of the handlers *)
(* ===================================================================== *)

(** ** The identifier codec, both ways *)

Lemma parse_id_error_inv (id : string) :
  snd (AgentStatusParseID id) <> None ->
  AgentStatusParseID id = ("", "", Some (parse_error id)).
Proof.
  unfold AgentStatusParseID.
  destruct (negb (Nat.eqb (length (SplitN id colon 2)) 2)
            || String.eqb (nth 0 (SplitN id colon 2) "") ""
            || String.eqb (nth 1 (SplitN id colon 2) "") "");
    simpl; intros H; [reflexivity | contradiction H; reflexivity].
Qed.

Lemma nonempty_of_eqb (s : string) : String.eqb s "" = false -> s <> "".
Proof. intros H. apply String.eqb_neq. exact H. Qed.

Lemma parse_id_of_parts (i a : string) :
  i <> "" -> a <> "" -> has_byte colon i = false ->
  AgentStatusParseID (AgentStatusCreateID i a) = (i, a, None).
Proof.
  intros Hi Ha Hc. unfold AgentStatusCreateID.
  rewrite (parse_id_split i a Hc), (eqb_empty_false i Hi), (eqb_empty_false a Ha).
  reflexivity.
Qed.

(** X1: [AgentStatusParseID] succeeds with the pair (i, a) exactly on the
    keys [i ++ ":" ++ a] whose first part is not empty and holds no colon
    and whose second part is not empty; so the key is split at its first
    colon only, further colons stay in the second part, and re-encoding a
    decoded pair gives the key back. *)
Theorem parse_id_success_iff (id i a : string) :
  AgentStatusParseID id = (i, a, None)
  <-> id = AgentStatusCreateID i a /\ i <> "" /\ a <> "" /\ has_byte colon i = false.
Proof.
  split.
  - intros H. destruct (first_colon id) as [Hno | (i0 & a0 & Hi0 & Hid)].
    + rewrite (parse_id_no_colon id Hno) in H. discriminate H.
    + subst id. rewrite (parse_id_split i0 a0 Hi0) in H.
      destruct (String.eqb i0 "") eqn:Ei; [discriminate H|].
      destruct (String.eqb a0 "") eqn:Ea; [discriminate H|].
      simpl in H. inversion H; subst.
      repeat split; [apply nonempty_of_eqb; exact Ei | apply nonempty_of_eqb; exact Ea | exact Hi0].
  - intros (Hid & Hi & Ha & Hc). subst id. apply parse_id_of_parts; assumption.
Qed.

(** ** The legacy handler on its own *)

Section LegacyProperties.

Context {World : Type}.
Variable conn : Client World.

(** X2: with a tracking key that does not decode, the legacy read and
    update issue no remote call at all: each returns the malformed-key
    error as its only diagnostic and leaves the record, the world and the
    log as they were. *)
Theorem legacy_malformed_key_no_call (d : ResourceData) (e : Env World) :
  snd (AgentStatusParseID (d_Id d)) <> None ->
  resourceAgentStatusRead conn d e = (Done ([malformed_key_diagnostic (d_Id d)], d), e)
  /\ resourceAgentStatusUpdate conn d e = (Done ([malformed_key_diagnostic (d_Id d)], d), e).
Proof.
  intros H. unfold resourceAgentStatusRead, resourceAgentStatusUpdate.
  rewrite (parse_id_error_inv (d_Id d) H). split; reflexivity.
Qed.

(** X3: when the describe call of the legacy read fails, the record is
    dropped (key cleared, no diagnostic) exactly when it is not new and the
    error is the not-found signal; in every other case the error is the
    read's only diagnostic and the record is unchanged.  Either way the
    describe call is the only call. *)
Theorem legacy_read_on_describe_error (d : ResourceData) (e : Env World) (i a : string)
  (out : option DescribeAgentStatusOutput) (err : error) (w' : World) :
  AgentStatusParseID (d_Id d) = (i, a, None) ->
  DescribeAgentStatus conn (describe_input i a) (world e) = ((out, Some err), w') ->
  resourceAgentStatusRead conn d e
  = (Done (if negb (d_IsNewResource d) && NotFound (Some err)
           then ([], SetId d "")
           else ([NewErrorDiagnostic
                    ("error getting Connect Agent Status (" ++ d_Id d ++ "): " ++ Error err)
                    ""], d)),
     Build_Env w' (calls e ++ [CallDescribe (describe_input i a)])).
Proof.
  intros Hparse Hdesc.
  destruct (negb (d_IsNewResource d) && NotFound (Some err)) eqn:Hdrop.
  - apply andb_true_iff in Hdrop. destruct Hdrop as [Hnew Hnf].
    apply negb_true_iff in Hnew.
    exact (legacy_read_not_found conn d e i a out (Some err) w' Hparse Hdesc Hnew Hnf).
  - apply andb_false_iff in Hdrop.
    apply (legacy_read_failure conn d e i a out err w' Hparse Hdesc).
    destruct Hdrop as [Hnew | Hnf]; [left | right; exact Hnf].
    apply negb_false_iff in Hnew. exact Hnew.
Qed.

Lemma legacy_read_described (d : ResourceData) (e : Env World) (i a : string)
  (s : AgentStatus) (w' : World) :
  AgentStatusParseID (d_Id d) = (i, a, None) ->
  DescribeAgentStatus conn (describe_input i a) (world e)
  = ((Some {| dao_AgentStatus := Some s |}, None), w') ->
  resourceAgentStatusRead conn d e
  = (Done ([], set_from_AgentStatus d i s),
     Build_Env w' (calls e ++ [CallDescribe (describe_input i a)])).
Proof.
  intros Hparse Hdesc. unfold resourceAgentStatusRead. rewrite Hparse.
  unfold bind, conn_DescribeAgentStatus. fold (describe_input i a).
  rewrite (invoke_eq _ _ e _ w' Hdesc). cbn [NotFound]. rewrite andb_false_r. reflexivity.
Qed.

Lemma legacy_create_answered (d : ResourceData) (e : Env World)
  (o : CreateAgentStatusOutput) (w' : World) :
  CreateAgentStatus conn (legacy_create_input d) (world e) = ((Some o, None), w') ->
  resourceAgentStatusCreate conn d e
  = bind (resourceAgentStatusRead conn
            (SetId d (AgentStatusCreateID (attr_instance_id (d_values d))
                        (aws_ToString (cao_AgentStatusId o)))))
         (fun x => match x with (more, d0) => ret ([] ++ more, d0) end)
         (Build_Env w' (calls e ++ [CallCreate (legacy_create_input d)])).
Proof.
  intros H. unfold resourceAgentStatusCreate. unfold bind at 1. unfold conn_CreateAgentStatus.
  rewrite (invoke_eq _ _ e _ w' H). reflexivity.
Qed.

(** X4: a legacy create that succeeds composes with the read it ends
    with.  For an instance identifier that is not empty and holds no colon,
    and a returned status identifier that is not empty, the key stored is
    [instance ++ ":" ++ id], the one further call describes exactly that
    instance and that identifier, and the record returned is refreshed from
    the description, without diagnostics. *)
Theorem legacy_create_then_read (d : ResourceData) (w : World)
  (o : CreateAgentStatusOutput) (w1 : World) (s : AgentStatus) (w2 : World) :
  let instanceID := attr_instance_id (d_values d) in
  let id := aws_ToString (cao_AgentStatusId o) in
  instanceID <> "" -> has_byte colon instanceID = false -> id <> "" ->
  CreateAgentStatus conn (legacy_create_input d) w = ((Some o, None), w1) ->
  DescribeAgentStatus conn (describe_input instanceID id) w1
  = ((Some {| dao_AgentStatus := Some s |}, None), w2) ->
  resourceAgentStatusCreate conn d (start w)
  = (Done ([], set_from_AgentStatus (SetId d (AgentStatusCreateID instanceID id)) instanceID s),
     Build_Env w2 [CallCreate (legacy_create_input d);
                   CallDescribe (describe_input instanceID id)]).
Proof.
  intros instanceID id Hi Hc Hid Hcreate Hdesc.
  rewrite (legacy_create_answered d (start w) o w1 Hcreate). fold instanceID id.
  unfold bind.
  rewrite (legacy_read_described (SetId d (AgentStatusCreateID instanceID id))
             (Build_Env w1 (calls (start w) ++ [CallCreate (legacy_create_input d)]))
             instanceID id s w2).
  - reflexivity.
  - cbn [SetId d_Id]. apply parse_id_of_parts; assumption.
  - exact Hdesc.
Qed.


Lemma legacy_read_calls_parsed (d : ResourceData) (e : Env World) (i a : string) :
  AgentStatusParseID (d_Id d) = (i, a, None) ->
  calls (snd (resourceAgentStatusRead conn d e))
  = calls e ++ [CallDescribe (describe_input i a)].
Proof.
  intros Hparse. unfold resourceAgentStatusRead. rewrite Hparse.
  unfold bind, conn_DescribeAgentStatus, invoke. fold (describe_input i a).
  destruct (DescribeAgentStatus conn (describe_input i a) (world e)) as [[resp err] w'].
  destruct (negb (d_IsNewResource d) && NotFound err); [reflexivity|].
  destruct err; [reflexivity|].
  destruct resp as [resp|]; [|reflexivity].
  destruct (dao_AgentStatus resp); reflexivity.
Qed.

Lemma bind_calls {A B : Type} (m : M World A) (k : A -> M World B) (e : Env World) :
  (forall a e', calls (snd (k a e')) = calls e') ->
  calls (snd (bind m k e)) = calls (snd (m e)).
Proof.
  intros Hk. unfold bind. destruct (m e) as [[a| |] e']; [apply Hk | reflexivity | reflexivity].
Qed.

Lemma legacy_read_then_ret_calls (d : ResourceData) (diags : Diagnostics) (e : Env World) :
  calls (snd (bind (resourceAgentStatusRead conn d)
                   (fun x => match x with (more, d0) => ret (diags ++ more, d0) end) e))
  = calls (snd (resourceAgentStatusRead conn d e)).
Proof. apply bind_calls. intros [more d0] e'. reflexivity. Qed.

Lemma string_append_assoc (a b c : string) :
  ((a ++ b) ++ c = a ++ (b ++ c))%string.
Proof. induction a as [|x a IH]; simpl; [reflexivity | now rewrite IH]. Qed.

(** X6: the key has no escaping, and the legacy create decodes the key
    it has just encoded.  With an instance identifier [i1 ++ ":" ++ i2]
    (for instance an instance ARN), the read that ends the create describes
    instance [i1] and status [i2 ++ ":" ++ id], not the instance and the
    status identifier the create call used. *)
Theorem legacy_create_colon_in_instance (d : ResourceData) (w : World)
  (o : CreateAgentStatusOutput) (w1 : World) (i1 i2 : string) :
  attr_instance_id (d_values d) = (i1 ++ ":" ++ i2)%string ->
  i1 <> "" -> has_byte colon i1 = false ->
  CreateAgentStatus conn (legacy_create_input d) w = ((Some o, None), w1) ->
  cai_InstanceId (legacy_create_input d) = Some (i1 ++ ":" ++ i2)%string
  /\ calls (snd (resourceAgentStatusCreate conn d (start w)))
     = [CallCreate (legacy_create_input d);
        CallDescribe (describe_input i1 (i2 ++ ":" ++ aws_ToString (cao_AgentStatusId o)))].
Proof.
  intros Hinst Hi1 Hc Hcreate. split.
  - unfold legacy_create_input, GetOk. rewrite Hinst.
    destruct (negb (String.eqb (attr_description (d_values d)) "")); reflexivity.
  - rewrite (legacy_create_answered d (start w) o w1 Hcreate).
    rewrite legacy_read_then_ret_calls.
    rewrite (legacy_read_calls_parsed _ _ i1 (i2 ++ ":" ++ aws_ToString (cao_AgentStatusId o))).
    + reflexivity.
    + cbn [SetId d_Id]. rewrite Hinst. unfold AgentStatusCreateID.
      rewrite string_append_assoc.
      change ((":" ++ i2) ++ ":" ++ aws_ToString (cao_AgentStatusId o))%string
        with (":" ++ (i2 ++ ":" ++ aws_ToString (cao_AgentStatusId o)))%string.
      rewrite (parse_id_split i1 _ Hc), (eqb_empty_false i1 Hi1).
      destruct i2; reflexivity.
Qed.

Lemma legacy_read_calls (d : ResourceData) (e : Env World) :
  calls (snd (resourceAgentStatusRead conn d e)) = calls e
  \/ exists input, calls (snd (resourceAgentStatusRead conn d e)) = calls e ++ [CallDescribe input].
Proof.
  destruct (AgentStatusParseID (d_Id d)) as [[i a] [perr|]] eqn:Hparse.
  - left. unfold resourceAgentStatusRead. rewrite Hparse. reflexivity.
  - right. exists (describe_input i a). apply legacy_read_calls_parsed. exact Hparse.
Qed.

(** X7: the calls of the legacy handler, whatever the service answers.
    A create issues its create call and then at most one describe call; an
    update issues at most one update call and then at most one describe
    call; a read issues at most one describe call.  None of them lists. *)
Theorem legacy_call_shapes (d : ResourceData) (w : World) :
  (exists tail,
     calls (snd (resourceAgentStatusCreate conn d (start w)))
     = CallCreate (legacy_create_input d) :: tail
     /\ (tail = [] \/ exists input, tail = [CallDescribe input]))
  /\ (exists head tail,
        calls (snd (resourceAgentStatusUpdate conn d (start w))) = head ++ tail
        /\ (head = [] \/ exists input, head = [CallUpdate input])
        /\ (tail = [] \/ exists input, tail = [CallDescribe input]))
  /\ (calls (snd (resourceAgentStatusRead conn d (start w))) = []
      \/ exists input, calls (snd (resourceAgentStatusRead conn d (start w)))
                       = [CallDescribe input]).
Proof.
  split; [|split].
  - destruct (CreateAgentStatus conn (legacy_create_input d) w) as [[[o|] [err|]] w1] eqn:Hc.
    + exists []. split; [|left; reflexivity].
      unfold resourceAgentStatusCreate, bind, conn_CreateAgentStatus.
      rewrite (invoke_eq _ _ (start w) _ w1 Hc). reflexivity.
    + rewrite (legacy_create_answered d (start w) o w1 Hc).
      rewrite legacy_read_then_ret_calls.
      match goal with |- context [resourceAgentStatusRead conn ?d' ?e'] =>
        destruct (legacy_read_calls d' e') as [H | (input & H)]; rewrite H end.
      * exists []. split; [reflexivity | left; reflexivity].
      * exists [CallDescribe input]. split; [reflexivity | right; exists input; reflexivity].
    + exists []. split; [|left; reflexivity].
      unfold resourceAgentStatusCreate, bind, conn_CreateAgentStatus.
      rewrite (invoke_eq _ _ (start w) _ w1 Hc). reflexivity.
    + exists []. split; [|left; reflexivity].
      unfold resourceAgentStatusCreate, bind, conn_CreateAgentStatus.
      rewrite (invoke_eq _ _ (start w) _ w1 Hc). reflexivity.
  - destruct (AgentStatusParseID (d_Id d)) as [[i a] [perr|]] eqn:Hparse.
    + exists [], []. unfold resourceAgentStatusUpdate. rewrite Hparse.
      repeat split; left; reflexivity.
    + destruct (HasChanges_name_description_state d) eqn:Hch.
      * pose (u := {| uai_AgentStatusId := aws_String a;
                      uai_InstanceId := aws_String i;
                      uai_Name := aws_String (attr_name (d_values d));
                      uai_State := attr_state (d_values d);
                      uai_Description := aws_String (attr_description (d_values d));
                      uai_DisplayOrder := None |}).
        destruct (UpdateAgentStatus conn u w) as [[out [err|]] w1] eqn:Hu.
        -- exists [CallUpdate u], [].
           unfold resourceAgentStatusUpdate. rewrite Hparse, Hch.
           unfold bind, conn_UpdateAgentStatus. fold u.
           rewrite (invoke_eq _ _ (start w) _ w1 Hu).
           repeat split; [right; eexists; reflexivity | left; reflexivity].
        -- exists [CallUpdate u], [CallDescribe (describe_input i a)].
           unfold resourceAgentStatusUpdate. rewrite Hparse, Hch.
           unfold bind at 1. unfold conn_UpdateAgentStatus. fold u.
           rewrite (invoke_eq _ _ (start w) _ w1 Hu).
           rewrite legacy_read_then_ret_calls.
           rewrite (legacy_read_calls_parsed _ _ i a Hparse).
           repeat split; right; eexists; reflexivity.
      * exists [], [CallDescribe (describe_input i a)].
        unfold resourceAgentStatusUpdate. rewrite Hparse, Hch.
        rewrite legacy_read_then_ret_calls.
        rewrite (legacy_read_calls_parsed _ _ i a Hparse).
        repeat split; [left; reflexivity | right; eexists; reflexivity].
  - destruct (legacy_read_calls d (start w)) as [H | (input & H)]; rewrite H.
    + left. reflexivity.
    + right. exists input. reflexivity.
Qed.

(** X8: a legacy update of a record whose name, description and state
    equal the last known ones is exactly a read: same result, same calls,
    same effect on the world. *)
Theorem legacy_update_unchanged_is_read (d : ResourceData) (e : Env World) :
  attr_name (d_prior d) = attr_name (d_values d) ->
  attr_description (d_prior d) = attr_description (d_values d) ->
  attr_state (d_prior d) = attr_state (d_values d) ->
  resourceAgentStatusUpdate conn d e = resourceAgentStatusRead conn d e.
Proof.
  intros Hn Hd Hs. unfold resourceAgentStatusUpdate.
  rewrite (HasChanges_false d Hn Hd Hs).
  destruct (AgentStatusParseID (d_Id d)) as [[i a] [perr|]] eqn:Hparse.
  - unfold resourceAgentStatusRead. rewrite Hparse. reflexivity.
  - unfold bind.
    destruct (resourceAgentStatusRead conn d e) as [[[more d0]| |] e']; reflexivity.
Qed.

(** X9: when the update call of a legacy update fails, the handler stops
    there: the error is its only diagnostic, the record is not refreshed and
    no describe call follows. *)
Theorem legacy_update_error_stops (d : ResourceData) (e : Env World) (i a : string)
  (out : option UpdateAgentStatusOutput) (err : error) (w' : World) :
  let input :=
    {| uai_AgentStatusId := Some a; uai_InstanceId := Some i;
       uai_Name := Some (attr_name (d_values d));
       uai_State := attr_state (d_values d);
       uai_Description := Some (attr_description (d_values d));
       uai_DisplayOrder := None |} in
  AgentStatusParseID (d_Id d) = (i, a, None) ->
  HasChanges_name_description_state d = true ->
  UpdateAgentStatus conn input (world e) = ((out, Some err), w') ->
  resourceAgentStatusUpdate conn d e
  = (Done ([NewErrorDiagnostic
              ("[ERROR] Error updating Agent Status (" ++ d_Id d ++ "): " ++ Error err) ""], d),
     Build_Env w' (calls e ++ [CallUpdate input])).
Proof.
  intros input Hparse Hch Hupd. unfold resourceAgentStatusUpdate. rewrite Hparse, Hch.
  unfold bind, conn_UpdateAgentStatus, aws_String. fold input.
  rewrite (invoke_eq _ _ e _ w' Hupd). reflexivity.
Qed.

End LegacyProperties.

(** ** The framework handler on its own *)

Section FrameworkProperties.

Context {World : Type}.
Variable r : AgentStatusResource World.
Variable data : AgentStatusResourceModel.

Lemma adopt_runs (s : AgentStatusSummary) (resp : Response) (e : Env World) :
  exists resp' w',
    adopt (config r) data s resp e
    = (Done resp', Build_Env w' (calls e ++ [CallUpdate (update_input (adopted data s))])).
Proof.
  destruct (UpdateAgentStatus (config r) (update_input (adopted data s)) (world e))
    as [reply w'] eqn:H.
  unfold adopt, bind. fold (adopted data s).
  rewrite (updateAgentStatus_eq r (adopted data s) e reply w' H).
  eexists. exists w'. reflexivity.
Qed.

Lemma range_statuses_calls (resp : Response) (l : list AgentStatusSummary) (e : Env World) :
  range_statuses (config r) data resp l e = (Done None, e)
  \/ exists s resp' e',
       range_statuses (config r) data resp l e = (Done (Some resp'), e')
       /\ calls e' = calls e ++ [CallUpdate (update_input (adopted data s))].
Proof.
  induction l as [|s l IH]; simpl; [left; reflexivity|].
  destruct (String.eqb _ _); [|exact IH].
  right. exists s. unfold bind.
  destruct (adopt_runs s resp e) as (resp' & w' & Hrun). rewrite Hrun.
  exists resp'. eexists. split; reflexivity.
Qed.

Lemma scan_call_list_input (tok : option string) : scan_call data (CallList (list_input data tok)).
Proof. exists tok. reflexivity. Qed.

(** The calls of the pagination loop: list calls, closed by one update
    call exactly when the loop is left by [Create]'s [return]. *)
Lemma list_loop_calls (fuel : nat) :
  forall (tok : option string) (resp : Response) (e : Env World)
         (o : Outcome LoopExit) (e' : Env World),
    list_loop fuel (config r) data tok resp e = (o, e') ->
    exists lists,
      Forall (scan_call data) lists
      /\ match o with
         | Done (Returned _) =>
             exists s, calls e' = calls e ++ lists ++ [CallUpdate (update_input (adopted data s))]
         | _ => calls e' = calls e ++ lists
         end.
Proof.
  induction fuel as [|fuel IH]; intros tok resp e o e' Hrun.
  - inversion Hrun; subst. exists []. split; [constructor|]. symmetry. apply app_nil_r.
  - cbn [list_loop] in Hrun. fold (list_input data tok) in Hrun.
    unfold bind at 1 in Hrun. unfold conn_ListAgentStatuses, invoke in Hrun.
    assert (Hone : Forall (scan_call data) [CallList (list_input data tok)])
      by (constructor; [apply scan_call_list_input | constructor]).
    destruct (ListAgentStatuses (config r) (list_input data tok) (world e))
      as [[[out|] [err|]] w1].
    + inversion Hrun; subst. exists [CallList (list_input data tok)]. split; [exact Hone | reflexivity].
    + unfold bind at 1 in Hrun. cbn [deref ret] in Hrun. unfold bind at 1 in Hrun.
      destruct (range_statuses_calls resp (lao_AgentStatusSummaryList out)
                  (Build_Env w1 (calls e ++ [CallList (list_input data tok)])))
        as [Hnone | (s & resp' & e1 & Hsome & Hcalls)].
      * rewrite Hnone in Hrun. destruct (lao_NextToken out) as [next|].
        -- destruct (IH _ _ _ _ _ Hrun) as (lists & Hlists & Hshape).
           exists (CallList (list_input data tok) :: lists).
           split; [constructor; [apply scan_call_list_input | exact Hlists]|].
           cbn [calls] in Hshape.
           destruct o as [[resp''|resp'']| |].
           ++ destruct Hshape as (s & Hs). exists s. rewrite Hs, <- app_assoc. reflexivity.
           ++ rewrite Hshape, <- app_assoc. reflexivity.
           ++ rewrite Hshape, <- app_assoc. reflexivity.
           ++ rewrite Hshape, <- app_assoc. reflexivity.
        -- inversion Hrun; subst. exists [CallList (list_input data tok)].
           split; [exact Hone | reflexivity].
      * rewrite Hsome in Hrun. inversion Hrun; subst.
        exists [CallList (list_input data tok)]. split; [exact Hone|].
        exists s. rewrite Hcalls. cbn [calls]. rewrite <- app_assoc. reflexivity.
    + inversion Hrun; subst. exists [CallList (list_input data tok)]. split; [exact Hone | reflexivity].
    + inversion Hrun; subst. exists [CallList (list_input data tok)]. split; [exact Hone | reflexivity].
Qed.

Lemma create_fresh_calls (resp : Response) (e : Env World) :
  calls (snd (create_fresh (config r) data (create_input data) resp e))
  = calls e ++ [CallCreate (create_input data)]
  /\ fst (create_fresh (config r) data (create_input data) resp e) <> OutOfFuel.
Proof.
  unfold create_fresh, bind, conn_CreateAgentStatus, invoke.
  destruct (CreateAgentStatus (config r) (create_input data) (world e))
    as [[[o|] [err|]] w1]; split; try reflexivity; discriminate.
Qed.

(** X10: the calls of the framework's [Create], whatever the service
    answers and however long the scan runs: list calls of the scan for the
    planned record, followed by at most one mutating call, which is either
    the update of an adopted entry or the create of the planned record,
    never both, and never a describe call.  A [Create] that returns has
    issued exactly one such mutating call. *)
Theorem create_log_invariant (fuel : nat) (cfg : AgentStatusResourceModel) (w : World) :
  let run := Create fuel r {| create_Plan := data; create_Config := cfg |}
               (new_Response None None) (start w) in
  create_log data (calls (snd run))
  /\ (forall resp, fst run = Done resp ->
        exists lists c,
          calls (snd run) = lists ++ [c]
          /\ Forall (scan_call data) lists
          /\ ((exists s, c = CallUpdate (update_input (adopted data s)))
              \/ c = CallCreate (create_input data))).
Proof.
  cbv zeta. rewrite Create_unfold.
  destruct (scans (ImportOnExists cfg)).
  - unfold bind.
    destruct (list_loop fuel (config r) data None (new_Response None None) (start w))
      as [o e'] eqn:Hrun.
    destruct (list_loop_calls fuel None (new_Response None None) (start w) o e' Hrun)
      as (lists & Hlists & Hshape).
    destruct o as [[resp'|resp']| |]; cbn [fst snd start calls app] in *.
    + destruct Hshape as (s & Hs). split.
      * exists lists, [CallUpdate (update_input (adopted data s))].
        split; [exact Hs | split; [exact Hlists | right; left; exists s; reflexivity]].
      * intros resp _. exists lists, (CallUpdate (update_input (adopted data s))).
        split; [exact Hs | split; [exact Hlists | left; exists s; reflexivity]].
    + destruct (create_fresh_calls resp' e') as (Hc & _). rewrite Hc, Hshape. split.
      * exists lists, [CallCreate (create_input data)].
        split; [reflexivity | split; [exact Hlists | right; right; reflexivity]].
      * intros resp _. exists lists, (CallCreate (create_input data)).
        split; [reflexivity | split; [exact Hlists | right; reflexivity]].
    + split.
      * exists lists, []. rewrite app_nil_r.
        split; [exact Hshape | split; [exact Hlists | left; reflexivity]].
      * intros resp H. discriminate H.
    + split.
      * exists lists, []. rewrite app_nil_r.
        split; [exact Hshape | split; [exact Hlists | left; reflexivity]].
      * intros resp H. discriminate H.
  - destruct (create_fresh_calls (new_Response None None) (start w)) as (Hc & _).
    rewrite Hc. cbn [start calls app]. split.
    + exists [], [CallCreate (create_input data)].
      split; [reflexivity | split; [constructor | right; right; reflexivity]].
    + intros resp _. exists [], (CallCreate (create_input data)).
      split; [reflexivity | split; [constructor | right; reflexivity]].
Qed.

(** The last page, without a match and without a further cursor: the
    loop is left by its [break]. *)
Lemma list_loop_exhausted (fuel : nat) (tok : option string) (resp : Response) (e : Env World)
  (out : ListAgentStatusesOutput) (w1 : World) :
  ListAgentStatuses (config r) (list_input data tok) (world e) = ((Some out, None), w1) ->
  Forall (fun x => ~ named data x) (lao_AgentStatusSummaryList out) ->
  lao_NextToken out = None ->
  list_loop (S fuel) (config r) data tok resp e
  = (Done (Broke resp), Build_Env w1 (calls e ++ [CallList (list_input data tok)])).
Proof.
  intros Hlist Hnone Hnext. cbn [list_loop]. unfold bind at 1. unfold conn_ListAgentStatuses.
  fold (list_input data tok).
  rewrite (invoke_eq _ _ e (Some out, None) w1 Hlist).
  unfold bind at 1. cbn [deref ret]. unfold bind at 1.
  rewrite (range_statuses_no_match r data resp _ _ Hnone). rewrite Hnext. reflexivity.
Qed.

(** X11: when the scan runs to the end of the listing without a match
    (every page served holds no entry with the desired name and the last
    one carries no cursor), [Create] issues the create call next; when that
    succeeds, the response persists the planned record under the identifier
    and ARN of the reply, with the matching identity and no diagnostic. *)
Theorem create_after_scan_without_match (fuel : nat) (cfg : AgentStatusResourceModel)
  (w : World) (log : list Call) (tok : option string) (w1 : World)
  (out : ListAgentStatusesOutput) (w2 : World) (o : CreateAgentStatusOutput) (w3 : World) :
  ImportOnExists cfg = Null \/ ImportOnExists cfg = Unknown \/ ImportOnExists cfg = Known true ->
  skips (config r) data None w log tok w1 ->
  length log <= fuel ->
  ListAgentStatuses (config r) (list_input data tok) w1 = ((Some out, None), w2) ->
  Forall (fun x => ~ named data x) (lao_AgentStatusSummaryList out) ->
  lao_NextToken out = None ->
  CreateAgentStatus (config r) (create_input data) w2 = ((Some o, None), w3) ->
  Create (S fuel) r {| create_Plan := data; create_Config := cfg |}
    (new_Response None None) (start w)
  = (Done (saved [] (created data o)),
     Build_Env w3 (log ++ [CallList (list_input data tok); CallCreate (create_input data)])).
Proof.
  intros Hs Hskip Hfuel Hlist Hnone Hnext Hcreate.
  apply scans_spec in Hs. rewrite Create_unfold, Hs. unfold bind.
  replace (S fuel) with (length log + S (fuel - length log)) by lia.
  unfold start. rewrite (list_loop_skips r data None w log tok w1 Hskip).
  rewrite (list_loop_exhausted (fuel - length log) tok (new_Response None None)
             (Build_Env w1 ([] ++ log)) out w2 Hlist Hnone Hnext).
  unfold new_Response.
  rewrite (create_fresh_eq r data [] (create_input data)
             (Build_Env w2 (calls (Build_Env w1 ([] ++ log)) ++ [CallList (list_input data tok)]))
             (Some o, None) w3 Hcreate).
  cbn [calls app]. rewrite <- app_assoc. reflexivity.
Qed.

(** X12: when the create call of [Create] fails (here without a scan,
    [import_on_exists] being false), the error is the only diagnostic and
    nothing is persisted: the response holds neither a state nor an
    identity, and the create call is the only call. *)
Theorem create_failure_saves_nothing (fuel : nat) (cfg : AgentStatusResourceModel)
  (w : World) (o : option CreateAgentStatusOutput) (err : error) (w1 : World) :
  ImportOnExists cfg = Known false ->
  CreateAgentStatus (config r) (create_input data) w = ((o, Some err), w1) ->
  Create fuel r {| create_Plan := data; create_Config := cfg |}
    (new_Response None None) (start w)
  = (Done {| resp_Diagnostics := [create_error_diagnostic err];
             resp_State := None; resp_Identity := None |},
     Build_Env w1 [CallCreate (create_input data)]).
Proof.
  intros Hfalse Hcreate. rewrite Create_unfold, Hfalse. cbn [scans IsNull IsUnknown ValueBool orb].
  unfold new_Response.
  rewrite (create_fresh_eq r data [] (create_input data) (start w) (o, Some err) w1 Hcreate).
  destruct o; reflexivity.
Qed.

(** Against a service whose pages never match and always carry a further
    cursor, the loop uses up any fuel. *)
Lemma list_loop_endless (fuel : nat) :
  (forall tok w, exists out next w',
      ListAgentStatuses (config r) (list_input data tok) w = ((Some out, None), w')
      /\ Forall (fun x => ~ named data x) (lao_AgentStatusSummaryList out)
      /\ lao_NextToken out = Some next) ->
  forall (tok : option string) (resp : Response) (e : Env World),
  exists lists e',
    list_loop fuel (config r) data tok resp e = (OutOfFuel, e')
    /\ calls e' = calls e ++ lists
    /\ length lists = fuel
    /\ Forall (scan_call data) lists.
Proof.
  intros Hsvc. induction fuel as [|fuel IH]; intros tok resp e.
  - exists [], e. repeat split; [symmetry; apply app_nil_r | constructor].
  - destruct (Hsvc tok (world e)) as (out & next & w' & Hlist & Hnone & Hnext).
    cbn [list_loop]. unfold bind at 1. unfold conn_ListAgentStatuses.
    fold (list_input data tok).
    rewrite (invoke_eq _ _ e (Some out, None) w' Hlist).
    unfold bind at 1. cbn [deref ret]. unfold bind at 1.
    rewrite (range_statuses_no_match r data resp _ _ Hnone). rewrite Hnext.
    destruct (IH (Some next) resp (Build_Env w' (calls e ++ [CallList (list_input data tok)])))
      as (lists & e' & Hrun & Hcalls & Hlen & Hall).
    exists (CallList (list_input data tok) :: lists), e'.
    split; [exact Hrun|]. split; [|split].
    + rewrite Hcalls. cbn [calls]. rewrite <- app_assoc. reflexivity.
    + cbn [length]. rewrite Hlen. reflexivity.
    + constructor; [apply scan_call_list_input | exact Hall].
Qed.

(** X13: the scan has no page limit.  Against a service whose every page
    holds no match and carries a further cursor, [Create] never gets past
    the loop: whatever bound is put on the number of iterations, it is used
    up by that many list calls, and neither an update nor a create call is
    issued. *)
Theorem scan_has_no_page_limit (cfg : AgentStatusResourceModel) :
  ImportOnExists cfg = Null \/ ImportOnExists cfg = Unknown \/ ImportOnExists cfg = Known true ->
  (forall tok w, exists out next w',
      ListAgentStatuses (config r) (list_input data tok) w = ((Some out, None), w')
      /\ Forall (fun x => ~ named data x) (lao_AgentStatusSummaryList out)
      /\ lao_NextToken out = Some next) ->
  forall (fuel : nat) (w : World),
    let run := Create fuel r {| create_Plan := data; create_Config := cfg |}
                 (new_Response None None) (start w) in
    fst run = OutOfFuel
    /\ length (calls (snd run)) = fuel
    /\ Forall (scan_call data) (calls (snd run)).
Proof.
  intros Hs Hsvc fuel w. cbv zeta. apply scans_spec in Hs.
  rewrite Create_unfold, Hs. unfold bind.
  destruct (list_loop_endless fuel Hsvc None (new_Response None None) (start w))
    as (lists & e' & Hrun & Hcalls & Hlen & Hall).
  rewrite Hrun. cbn [fst snd]. rewrite Hcalls. cbn [start calls app].
  repeat split; assumption.
Qed.

(** X14: a framework read of a request that carries an identity, whose
    describe call answers with a description, saves the refreshed record
    and reports nothing.  The
    instance identifier and [import_on_exists] are the stored ones; the
    display order is taken from the description only when its state is
    ENABLED and it carries one, and is the stored one otherwise; the
    identity is left as it was. *)
Theorem framework_read_refreshes (req : ReadRequest) (st : option AgentStatusResourceModel)
  (ident : option AgentStatusResourceIdentityModel) (e : Env World)
  (a : AgentStatus) (w' : World) :
  let input := describe_input (ValueString (InstanceID (read_State req)))
                 (ValueString (AgentStatusID (read_State req))) in
  read_Identity req <> None ->
  DescribeAgentStatus (config r) input (world e)
  = ((Some {| dao_AgentStatus := Some a |}, None), w') ->
  Read r req (new_Response st ident) e
  = (Done {| resp_Diagnostics := [];
             resp_State := Some (refreshed (read_State req) a);
             resp_Identity := ident |},
     Build_Env w' (calls e ++ [CallDescribe input]))
  /\ InstanceID (refreshed (read_State req) a) = InstanceID (read_State req)
  /\ (as_State a <> "ENABLED" ->
      DisplayOrder (refreshed (read_State req) a) = DisplayOrder (read_State req))
  /\ (as_DisplayOrder a = None ->
      DisplayOrder (refreshed (read_State req) a) = DisplayOrder (read_State req))
  /\ (forall v, as_State a = "ENABLED" -> as_DisplayOrder a = Some v ->
      DisplayOrder (refreshed (read_State req) a) = Known v).
Proof.
  intros input Hid Hdesc. split; [|split; [reflexivity|split; [|split]]].
  - unfold Read, Get, Identity_Get, NewFromConfig.
    destruct (read_Identity req) as [i|]; [|contradiction Hid; reflexivity]. cbn.
    unfold bind, conn_DescribeAgentStatus. fold input.
    rewrite (invoke_eq _ _ e _ w' Hdesc). cbn.
    unfold refreshed, AgentStatusStateEnabled, StringValue, Int32Value.
    destruct (as_DisplayOrder a) as [v|]; cbn.
    + rewrite andb_true_r. destruct (String.eqb (as_State a) "ENABLED"); reflexivity.
    + rewrite andb_false_r. reflexivity.
  - intros Hstate. unfold refreshed. cbn [DisplayOrder].
    apply String.eqb_neq in Hstate. rewrite Hstate.
    destruct (as_DisplayOrder a); reflexivity.
  - intros Hnone. unfold refreshed. cbn [DisplayOrder]. rewrite Hnone. reflexivity.
  - intros v Hstate Hv. unfold refreshed. cbn [DisplayOrder]. rewrite Hv, Hstate. reflexivity.
Qed.

(** X15: on a request that carries an identity, whatever error the
    describe call of the framework's read returns, the not-found signal
    included, the read reports it as its one error diagnostic and keeps the
    state and the identity it was given; the describe call is its only
    call. *)
Theorem framework_read_error_keeps_record (req : ReadRequest)
  (st : option AgentStatusResourceModel) (ident : option AgentStatusResourceIdentityModel)
  (e : Env World) (out : option DescribeAgentStatusOutput) (err : error) (w' : World) :
  let input := describe_input (ValueString (InstanceID (read_State req)))
                 (ValueString (AgentStatusID (read_State req))) in
  read_Identity req <> None ->
  DescribeAgentStatus (config r) input (world e) = ((out, Some err), w') ->
  exists resp,
    Read r req (new_Response st ident) e
    = (Done resp, Build_Env w' (calls e ++ [CallDescribe input]))
    /\ resp_Diagnostics resp = [read_error_diagnostic err]
    /\ HasError (resp_Diagnostics resp) = true
    /\ resp_State resp = st
    /\ resp_Identity resp = ident.
Proof.
  intros input Hid Hdesc.
  exists {| resp_Diagnostics := [read_error_diagnostic err];
            resp_State := st; resp_Identity := ident |}.
  split; [|repeat split].
  exact (framework_read_failure r req st ident e out err w' Hid Hdesc).
Qed.

(** X25: a framework read of a request whose identity is null stops at
    decoding it: the response gets the decoder's "Value Conversion Error"
    as its one error diagnostic, the state and the identity it was given
    stay, and no describe call is issued, whatever the remote service would
    answer. *)
Theorem framework_read_null_identity (req : ReadRequest)
  (st : option AgentStatusResourceModel) (ident : option AgentStatusResourceIdentityModel)
  (e : Env World) :
  read_Identity req = None ->
  exists resp,
    Read r req (new_Response st ident) e = (Done resp, e)
    /\ map diag_Summary (resp_Diagnostics resp) = ["Value Conversion Error"]
    /\ HasError (resp_Diagnostics resp) = true
    /\ resp_State resp = st
    /\ resp_Identity resp = ident.
Proof.
  intros Hid.
  exists {| resp_Diagnostics := [null_value_diagnostic];
            resp_State := st; resp_Identity := ident |}.
  split; [|repeat split].
  unfold Read, Get, Identity_Get. rewrite Hid. reflexivity.
Qed.

(** X16: the framework's [Update] persists the planned record exactly
    when its update call succeeds; when the call fails, the error is the
    one diagnostic and the state is the one the response started from.
    Either way the identity is untouched and the update call is the only
    call. *)
Theorem framework_update_persists_on_success (req : UpdateRequest)
  (st : option AgentStatusResourceModel) (ident : option AgentStatusResourceIdentityModel)
  (e : Env World) (reply : Reply UpdateAgentStatusOutput) (w' : World) :
  UpdateAgentStatus (config r) (update_input (update_Plan req)) (world e) = (reply, w') ->
  Update r req (new_Response st ident) e
  = (Done match snd reply with
          | Some err =>
              {| resp_Diagnostics := [update_error_diagnostic err];
                 resp_State := st; resp_Identity := ident |}
          | None =>
              {| resp_Diagnostics := [];
                 resp_State := Some (update_Plan req); resp_Identity := ident |}
          end,
     Build_Env w' (calls e ++ [CallUpdate (update_input (update_Plan req))])).
Proof.
  intros Hupd. unfold Update, Get, NewFromConfig. cbn. unfold bind.
  rewrite (updateAgentStatus_eq r (update_Plan req) e reply w' Hupd).
  destruct reply as [out [err|]]; reflexivity.
Qed.

Lemma framework_read_calls (req : ReadRequest) (st : option AgentStatusResourceModel)
  (ident : option AgentStatusResourceIdentityModel) (e : Env World) :
  read_Identity req <> None ->
  calls (snd (Read r req (new_Response st ident) e))
  = calls e ++ [CallDescribe (describe_input (ValueString (InstanceID (read_State req)))
                                (ValueString (AgentStatusID (read_State req))))].
Proof.
  intros Hid. unfold Read, Get, Identity_Get, NewFromConfig.
  destruct (read_Identity req) as [i0|]; [|contradiction Hid; reflexivity]. cbn.
  unfold bind, conn_DescribeAgentStatus, invoke.
  match goal with |- context [DescribeAgentStatus (config r) ?i (world e)] =>
    destruct (DescribeAgentStatus (config r) i (world e)) as [[[out|] [err|]] w'] end;
    try reflexivity.
  destruct (dao_AgentStatus out); reflexivity.
Qed.

(** X24: [Create] and [Read] compose on the identifier.  A read of the
    record that [Create] persisted, whether after a fresh create answered
    with [o] or after adopting the listed entry [s], issues exactly one
    call: the describe of the planned instance and of the identifier the
    service gave, whatever the service answers next. *)
Theorem read_after_create_describes_saved_id (o : CreateAgentStatusOutput)
  (s : AgentStatusSummary) (st : option AgentStatusResourceModel) (w : World) :
  calls (snd (Read r {| read_State := created data o;
                        read_Identity := Some (identity_of (created data o)) |}
                (new_Response st (Some (identity_of (created data o)))) (start w)))
  = [CallDescribe (describe_input (ValueString (InstanceID data))
                     (aws_ToString (cao_AgentStatusId o)))]
  /\ calls (snd (Read r {| read_State := adopted data s;
                           read_Identity := Some (identity_of (adopted data s)) |}
                   (new_Response st (Some (identity_of (adopted data s)))) (start w)))
     = [CallDescribe (describe_input (ValueString (InstanceID data))
                        (aws_ToString (sum_Id s)))].
Proof. split; rewrite framework_read_calls; solve [reflexivity | discriminate]. Qed.

End FrameworkProperties.

(** ** Configuration *)

Lemma Diagnostic_eqb_eq (a b : Diagnostic) : Diagnostic_eqb a b = true -> a = b.
Proof.
  destruct a as [sa ma da], b as [sb mb db]. unfold Diagnostic_eqb. simpl. intros H.
  apply andb_true_iff in H. destruct H as [H Hd].
  apply andb_true_iff in H. destruct H as [Hs Hm].
  apply String.eqb_eq in Hd. apply String.eqb_eq in Hm. subst.
  destruct sa, sb; try discriminate; reflexivity.
Qed.

Lemma Contains_In (diags : Diagnostics) (d : Diagnostic) :
  Contains diags d = true -> In d diags.
Proof.
  unfold Contains. intros H. apply existsb_exists in H. destruct H as (x & Hx & Heq).
  apply Diagnostic_eqb_eq in Heq. subst. exact Hx.
Qed.

(** An added error is in the diagnostics afterwards, whether or not it
    was there before, and the diagnostics then hold an error. *)
Lemma AddError_In (diags : Diagnostics) (summary detail : string) :
  In (NewErrorDiagnostic summary detail) (AddError diags summary detail)
  /\ HasError (AddError diags summary detail) = true.
Proof.
  assert (Hin : In (NewErrorDiagnostic summary detail) (AddError diags summary detail)).
  { unfold AddError. cbn [Append].
    destruct (Contains diags (NewErrorDiagnostic summary detail)) eqn:Hc.
    - apply Contains_In. exact Hc.
    - apply in_or_app. right. left. reflexivity. }
  split; [exact Hin|]. unfold HasError. apply existsb_exists.
  exists (NewErrorDiagnostic summary detail). split; [exact Hin | reflexivity].
Qed.

Section ConfigurationProperties.

Context {World : Type}.

(** X17: the resource's [Configure] takes its configuration from an
    [aws.Config] value only.  Absent provider data is accepted without a
    diagnostic and changes nothing; any other value, a pointer to a
    configuration included, leaves the resource as it was and adds the
    "Unexpected Resource Configure Type" error naming the value's type. *)
Theorem configure_accepts_config_value_only (r : AgentStatusResource World)
  (providerData : ProviderData (Client World)) (diags : Diagnostics) :
  match providerData with
  | ProviderData_nil => Configure r providerData diags = (r, diags)
  | ProviderData_Config cfg => Configure r providerData diags = ({| config := cfg |}, diags)
  | _ =>
      fst (Configure r providerData diags) = r
      /\ In (NewErrorDiagnostic "Unexpected Resource Configure Type"
               ("Expected *aws.Config, got: " ++ type_name providerData
                ++ ". Please report this issue to the provider developers."))
            (snd (Configure r providerData diags))
      /\ HasError (snd (Configure r providerData diags)) = true
  end.
Proof.
  destruct providerData as [|cfg|cfg|t]; try reflexivity;
    (split; [reflexivity|]; apply AddError_In).
Qed.

(** X18: which load options the provider's [Configure] passes to the
    SDK.  Static credentials are used exactly when both the access key and
    the secret key are not empty, and then carry the configured key, secret
    and session token; the shared profile is used exactly when it is not
    empty and static credentials are not used, so an access key without a
    secret key is ignored; the region option is present exactly when the
    region is not empty.  There are at most two options. *)
Theorem addendums_precedence (data : AwsExtProvider.AwsExtProviderModel) :
  let key := ValueString (AwsExtProvider.AccessKey data) in
  let secret := ValueString (AwsExtProvider.SecretKey data) in
  let session := ValueString (AwsExtProvider.Token data) in
  let profile := ValueString (AwsExtProvider.Profile data) in
  let region := ValueString (AwsExtProvider.Region data) in
  (forall k s t, In (AwsExtProvider.WithStaticCredentialsProvider k s t)
                    (AwsExtProvider.addendums data)
                 <-> (key <> "" /\ secret <> "") /\ k = key /\ s = secret /\ t = session)
  /\ (forall p, In (AwsExtProvider.WithSharedConfigProfile p) (AwsExtProvider.addendums data)
                <-> (key = "" \/ secret = "") /\ profile <> "" /\ p = profile)
  /\ (forall g, In (AwsExtProvider.WithRegion g) (AwsExtProvider.addendums data)
                <-> region <> "" /\ g = region)
  /\ length (AwsExtProvider.addendums data) <= 2.
Proof.
  cbv zeta. unfold AwsExtProvider.addendums.
  destruct (String.eqb_spec (ValueString (AwsExtProvider.AccessKey data)) "") as [Hk|Hk];
  destruct (String.eqb_spec (ValueString (AwsExtProvider.SecretKey data)) "") as [Hs|Hs];
  destruct (String.eqb_spec (ValueString (AwsExtProvider.Profile data)) "") as [Hp|Hp];
  destruct (String.eqb_spec (ValueString (AwsExtProvider.Region data)) "") as [Hr|Hr];
  cbn [negb andb app];
  (split; [|split; [|split]]);
  try (cbn [length]; lia);
  intros; cbn [In]; split; intros H;
  repeat match goal with
         | H : _ \/ _ |- _ => destruct H
         | H : _ /\ _ |- _ => destruct H
         | H : False |- _ => contradiction H
         | H : AwsExtProvider.WithStaticCredentialsProvider _ _ _ = _ |- _ =>
             inversion H; clear H; subst
         | H : AwsExtProvider.WithSharedConfigProfile _ = _ |- _ => inversion H; clear H; subst
         | H : AwsExtProvider.WithRegion _ = _ |- _ => inversion H; clear H; subst
         end;
  subst; try congruence; try tauto; auto 8.
Qed.

(** X19: what the provider's [Configure] hands over is what the
    resource's [Configure] stores.  When the SDK loads a configuration, the
    provider reports nothing and the resource then holds that configuration,
    with its credentials replaced by the assumed role exactly when a role
    ARN is configured.  When loading fails, the provider reports "Failed to
    load AWS config" with the error's text and hands over nothing, and the
    resource's [Configure] accepts that silently, unchanged. *)
Theorem provider_configure_hands_over (sdk : AwsExtProvider.SDK (Client World))
  (data : AwsExtProvider.AwsExtProviderModel) (r : AgentStatusResource World) :
  let resp := AwsExtProvider.Configure sdk data AwsExtProvider.new_ConfigureResponse in
  let role := ValueString (AwsExtProvider.RoleArn data) in
  match AwsExtProvider.LoadDefaultConfig sdk (AwsExtProvider.addendums data) with
  | (_, Some e) =>
      AwsExtProvider.cr_Diagnostics resp
      = [NewErrorDiagnostic "Failed to load AWS config" (Error e)]
      /\ AwsExtProvider.cr_ResourceData resp = ProviderData_nil
      /\ Configure r (AwsExtProvider.cr_ResourceData resp) [] = (r, [])
  | (cfg, None) =>
      AwsExtProvider.cr_Diagnostics resp = []
      /\ (role = "" ->
          Configure r (AwsExtProvider.cr_ResourceData resp) [] = ({| config := cfg |}, []))
      /\ (role <> "" ->
          Configure r (AwsExtProvider.cr_ResourceData resp) []
          = ({| config := AwsExtProvider.AssumeRole sdk cfg role |}, []))
  end.
Proof.
  cbv zeta. unfold AwsExtProvider.Configure, AwsExtProvider.Config_Get,
    AwsExtProvider.new_ConfigureResponse. cbn.
  destruct (AwsExtProvider.LoadDefaultConfig sdk (AwsExtProvider.addendums data))
    as [cfg [e|]]; cbn.
  - repeat split.
  - split; [reflexivity|]. split; intros Hrole.
    + rewrite Hrole. reflexivity.
    + apply String.eqb_neq in Hrole. rewrite Hrole. reflexivity.
Qed.

(** X20: the earlier copy of the handler asserts a pointer to a
    configuration.  The configuration value that the provider's
    [Configure] hands over after a successful load is therefore rejected:
    the earlier [Configure] keeps the resource as it was and reports
    "Unexpected Resource Configure Type" for the type [aws.Config]. *)
Theorem earlier_configure_rejects_config_value (sdk : AwsExtProvider.SDK (Client World))
  (data : AwsExtProvider.AwsExtProviderModel) (r : Earlier.AgentStatusResource World) :
  snd (AwsExtProvider.LoadDefaultConfig sdk (AwsExtProvider.addendums data)) = None ->
  Earlier.Configure r
    (AwsExtProvider.cr_ResourceData
       (AwsExtProvider.Configure sdk data AwsExtProvider.new_ConfigureResponse)) []
  = (r, [NewErrorDiagnostic "Unexpected Resource Configure Type"
           "Expected *aws.Config, got: aws.Config. Please report this issue to the provider developers."]).
Proof.
  intros Hload. unfold AwsExtProvider.Configure, AwsExtProvider.Config_Get,
    AwsExtProvider.new_ConfigureResponse. cbn.
  destruct (AwsExtProvider.LoadDefaultConfig sdk (AwsExtProvider.addendums data))
    as [cfg [e|]]; [discriminate Hload|]. reflexivity.
Qed.

(** X21: the earlier copy's [Create] never lists: on a configured
    resource its one call is the create call, whose payload carries no
    display order whatever the state.  A failed call is reported and leaves
    the state as it was; a reply with a payload persists the planned record
    under the reply's identifier and ARN. *)
Theorem earlier_create_single_call (conn : Client World)
  (plan : Earlier.AgentStatusResourceModel) (st : option Earlier.AgentStatusResourceModel)
  (e : Env World) (reply : Reply CreateAgentStatusOutput) (w' : World) :
  CreateAgentStatus conn (Earlier.create_input plan) (world e) = (reply, w') ->
  calls (snd (Earlier.Create (Earlier.Build_AgentStatusResource (Some conn)) plan
                (Earlier.new_Response st) e))
  = calls e ++ [CallCreate (Earlier.create_input plan)]
  /\ cai_DisplayOrder (Earlier.create_input plan) = None
  /\ (forall o err, reply = (o, Some err) ->
        fst (Earlier.Create (Earlier.Build_AgentStatusResource (Some conn)) plan
               (Earlier.new_Response st) e)
        = Done {| Earlier.resp_Diagnostics := [create_error_diagnostic err];
                  Earlier.resp_State := st |})
  /\ (forall o, reply = (Some o, None) ->
        fst (Earlier.Create (Earlier.Build_AgentStatusResource (Some conn)) plan
               (Earlier.new_Response st) e)
        = Done {| Earlier.resp_Diagnostics := [];
                  Earlier.resp_State :=
                    Some (Earlier.set_AgentStatusID_Arn plan
                            (Known (aws_ToString (cao_AgentStatusId o)))
                            (Known (aws_ToString (cao_AgentStatusARN o)))) |}).
Proof.
  intros Hcreate.
  assert (Hrun : Earlier.Create (Earlier.Build_AgentStatusResource (Some conn)) plan
                   (Earlier.new_Response st) e
                 = (match reply with
                    | (_, Some err) =>
                        Done {| Earlier.resp_Diagnostics := [create_error_diagnostic err];
                                Earlier.resp_State := st |}
                    | (Some o, None) =>
                        Done {| Earlier.resp_Diagnostics := [];
                                Earlier.resp_State :=
                                  Some (Earlier.set_AgentStatusID_Arn plan
                                          (Known (aws_ToString (cao_AgentStatusId o)))
                                          (Known (aws_ToString (cao_AgentStatusARN o)))) |}
                    | (None, None) => Panic
                    end,
                    Build_Env w' (calls e ++ [CallCreate (Earlier.create_input plan)]))).
  { unfold Earlier.Create, Earlier.Get, NewFromConfig. cbn.
    unfold bind at 1. cbn [deref ret]. unfold bind, conn_CreateAgentStatus.
    rewrite (invoke_eq _ _ e reply w' Hcreate).
    destruct reply as [[o|] [err|]]; reflexivity. }
  rewrite Hrun. cbn [fst snd calls]. repeat split.
  - intros o err H. rewrite H. destruct o; reflexivity.
  - intros o H. rewrite H. reflexivity.
Qed.

(** X22: the earlier copy dereferences its configuration pointer before
    any call: on a resource that was never configured, [Create], [Read] and
    [Update] panic without issuing a call, while [Delete], which never
    touches the configuration, still returns the response it was given. *)
Theorem earlier_unconfigured_panics (data : Earlier.AgentStatusResourceModel)
  (st : option Earlier.AgentStatusResourceModel) (e : Env World) :
  let r := @Earlier.Build_AgentStatusResource World None in
  Earlier.Create r data (Earlier.new_Response st) e = (Panic, e)
  /\ Earlier.Read r data (Earlier.new_Response st) e = (Panic, e)
  /\ Earlier.Update r data (Earlier.new_Response st) e = (Panic, e)
  /\ Earlier.Delete r data (Earlier.new_Response st) e = (Done (Earlier.new_Response st), e).
Proof. cbv zeta. repeat split. Qed.

(** X23: the earlier copy's [Update] issues exactly one update call,
    whose payload carries no display order even under ENABLED, and persists
    the planned record exactly when that call succeeds. *)
Theorem earlier_update_single_call (conn : Client World)
  (plan : Earlier.AgentStatusResourceModel) (st : option Earlier.AgentStatusResourceModel)
  (e : Env World) (reply : Reply UpdateAgentStatusOutput) (w' : World) :
  UpdateAgentStatus conn (Earlier.update_input plan) (world e) = (reply, w') ->
  Earlier.Update (Earlier.Build_AgentStatusResource (Some conn)) plan
    (Earlier.new_Response st) e
  = (Done match snd reply with
          | Some err =>
              {| Earlier.resp_Diagnostics := [update_error_diagnostic err];
                 Earlier.resp_State := st |}
          | None =>
              {| Earlier.resp_Diagnostics := []; Earlier.resp_State := Some plan |}
          end,
     Build_Env w' (calls e ++ [CallUpdate (Earlier.update_input plan)]))
  /\ uai_DisplayOrder (Earlier.update_input plan) = None.
Proof.
  intros Hupd. split; [|reflexivity].
  unfold Earlier.Update, Earlier.Get, NewFromConfig. cbn.
  unfold bind at 1. cbn [deref ret]. unfold bind, conn_UpdateAgentStatus.
  rewrite (invoke_eq _ _ e reply w' Hupd).
  destruct reply as [out [err|]]; reflexivity.
Qed.

End ConfigurationProperties.

(** ** Further runs against the in-memory services *)

Lemma legacy_malformed_key_no_call_witness :
  resourceAgentStatusRead remote_client (SetId (d_lunch "a2" "Lunch") "") (start healthy)
  = (Done ([malformed_key_diagnostic ""], SetId (d_lunch "a2" "Lunch") ""), start healthy)
  /\ resourceAgentStatusUpdate remote_client (SetId (d_lunch "a2" "Break") "abc") (start healthy)
     = (Done ([malformed_key_diagnostic "abc"], SetId (d_lunch "a2" "Break") "abc"),
        start healthy).
Proof.
  split.
  - apply (proj1 (legacy_malformed_key_no_call remote_client
                    (SetId (d_lunch "a2" "Lunch") "") (start healthy)
                    ltac:(discriminate))).
  - apply (proj2 (legacy_malformed_key_no_call remote_client
                    (SetId (d_lunch "a2" "Break") "abc") (start healthy)
                    ltac:(discriminate))).
Defined.

Lemma legacy_read_on_describe_error_witness :
  resourceAgentStatusRead remote_client (d_lunch "gone" "Lunch") (start healthy)
  = (Done ([], SetId (d_lunch "gone" "Lunch") ""),
     Build_Env healthy [CallDescribe (describe_input "inst" "gone")]).
Proof.
  exact (legacy_read_on_describe_error remote_client (d_lunch "gone" "Lunch") (start healthy)
           "inst" "gone" None (NotFoundError "ResourceNotFoundException") healthy
           eq_refl eq_refl).
Defined.

Lemma legacy_create_then_read_witness :
  exists d' w2,
    resourceAgentStatusCreate remote_client (d_new "inst") (start without_lunch)
    = (Done ([], d'),
       Build_Env w2 [CallCreate (legacy_create_input (d_new "inst"));
                     CallDescribe (describe_input "inst" "new")])
    /\ d_Id d' = "inst:new"
    /\ attr_arn (d_values d') = "arn:aws:connect:agent-status/new".
Proof.
  eexists. eexists. split.
  - eapply (legacy_create_then_read remote_client (d_new "inst") without_lunch created_output).
    + discriminate.
    + reflexivity.
    + discriminate.
    + reflexivity.
    + reflexivity.
  - split; reflexivity.
Defined.


Lemma legacy_create_colon_in_instance_witness :
  cai_InstanceId (legacy_create_input (d_new "arn:aws:connect:eu:1:instance/i"))
  = Some "arn:aws:connect:eu:1:instance/i"
  /\ calls (snd (resourceAgentStatusCreate remote_client
                   (d_new "arn:aws:connect:eu:1:instance/i") (start without_lunch)))
     = [CallCreate (legacy_create_input (d_new "arn:aws:connect:eu:1:instance/i"));
        CallDescribe (describe_input "arn" "aws:connect:eu:1:instance/i:new")].
Proof.
  eapply (legacy_create_colon_in_instance remote_client
            (d_new "arn:aws:connect:eu:1:instance/i") without_lunch created_output _
            "arn" "aws:connect:eu:1:instance/i" eq_refl).
  - discriminate.
  - reflexivity.
  - reflexivity.
Defined.

Lemma legacy_update_unchanged_is_read_witness :
  resourceAgentStatusUpdate remote_client (d_lunch "a2" "Lunch") (start healthy)
  = resourceAgentStatusRead remote_client (d_lunch "a2" "Lunch") (start healthy).
Proof.
  exact (legacy_update_unchanged_is_read remote_client (d_lunch "a2" "Lunch") (start healthy)
           eq_refl eq_refl eq_refl).
Defined.

Lemma legacy_update_error_stops_witness :
  resourceAgentStatusUpdate remote_client (d_lunch "a2" "Break") (start update_failing)
  = (Done ([NewErrorDiagnostic
              "[ERROR] Error updating Agent Status (inst:a2): ThrottlingException" ""],
           d_lunch "a2" "Break"),
     Build_Env update_failing
       [CallUpdate {| uai_AgentStatusId := Some "a2"; uai_InstanceId := Some "inst";
                      uai_Name := Some "Break"; uai_State := "DISABLED";
                      uai_Description := Some ""; uai_DisplayOrder := None |}]).
Proof.
  exact (legacy_update_error_stops remote_client (d_lunch "a2" "Break") (start update_failing)
           "inst" "a2" None throttled update_failing eq_refl eq_refl eq_refl).
Defined.

Lemma create_after_scan_without_match_witness :
  exists w3,
    Create 3 remote_resource (create_lunch "ENABLED" Null) (new_Response None None)
      (start without_lunch)
    = (Done (saved [] (created (plan_lunch "ENABLED" Null) created_output)),
       Build_Env w3 [CallList (list_input (plan_lunch "ENABLED" Null) None);
                     CallCreate (create_input (plan_lunch "ENABLED" Null))]).
Proof.
  eexists.
  eapply (create_after_scan_without_match remote_resource (plan_lunch "ENABLED" Null) 2
            (plan_lunch "ENABLED" Null) without_lunch [] None without_lunch
            {| lao_AgentStatusSummaryList := [summary_of status_available];
               lao_NextToken := None |}
            without_lunch created_output).
  - left. reflexivity.
  - apply skips_none.
  - apply Nat.le_0_l.
  - reflexivity.
  - constructor; [apply available_not_lunch | constructor].
  - reflexivity.
  - reflexivity.
Defined.

Lemma create_failure_saves_nothing_witness :
  Create 3 remote_resource (create_lunch "DISABLED" (Known false)) (new_Response None None)
    (start create_failing)
  = (Done {| resp_Diagnostics := [create_error_diagnostic throttled];
             resp_State := None; resp_Identity := None |},
     Build_Env create_failing [CallCreate (create_input (plan_lunch "DISABLED" Null))]).
Proof.
  exact (create_failure_saves_nothing remote_resource (plan_lunch "DISABLED" Null) 3
           (plan_lunch "DISABLED" (Known false)) create_failing None throttled create_failing
           eq_refl eq_refl).
Defined.

Lemma scan_has_no_page_limit_witness :
  fst (Create 7 {| config := endless_client |} (create_lunch "ENABLED" Null)
         (new_Response None None) (start tt)) = OutOfFuel
  /\ length (calls (snd (Create 7 {| config := endless_client |} (create_lunch "ENABLED" Null)
                           (new_Response None None) (start tt)))) = 7
  /\ Forall (scan_call (plan_lunch "ENABLED" Null))
       (calls (snd (Create 7 {| config := endless_client |} (create_lunch "ENABLED" Null)
                      (new_Response None None) (start tt)))).
Proof.
  apply (scan_has_no_page_limit {| config := endless_client |} (plan_lunch "ENABLED" Null)
           (plan_lunch "ENABLED" Null) (or_introl eq_refl)).
  intros tok w.
  exists {| lao_AgentStatusSummaryList := []; lao_NextToken := Some "more" |}, "more", w.
  split; [reflexivity | split; [constructor | reflexivity]].
Defined.

Lemma framework_read_refreshes_witness :
  Read remote_resource (read_tracked "a2") (new_Response (Some (tracked "a2")) None)
    (start healthy)
  = (Done {| resp_Diagnostics := [];
             resp_State := Some (refreshed (tracked "a2") status_lunch);
             resp_Identity := None |},
     Build_Env healthy [CallDescribe (describe_input "inst" "a2")])
  /\ DisplayOrder (refreshed (tracked "a2") status_lunch) = Known 1%Z.
Proof.
  pose proof (framework_read_refreshes remote_resource (read_tracked "a2")
                (Some (tracked "a2")) None (start healthy) status_lunch healthy
                ltac:(discriminate) eq_refl) as H.
  cbv zeta in H. destruct H as (Hrun & _ & Hdisabled & _).
  split; [exact Hrun|]. apply Hdisabled. discriminate.
Defined.

Lemma framework_read_error_keeps_record_witness :
  exists resp,
    Read remote_resource (read_tracked "gone") (new_Response (Some (tracked "gone")) None)
      (start healthy)
    = (Done resp, Build_Env healthy ([] ++ [CallDescribe (describe_input "inst" "gone")]))
    /\ resp_Diagnostics resp
       = [read_error_diagnostic (NotFoundError "ResourceNotFoundException")]
    /\ HasError (resp_Diagnostics resp) = true
    /\ resp_State resp = Some (tracked "gone")
    /\ resp_Identity resp = None.
Proof.
  exact (framework_read_error_keeps_record remote_resource (read_tracked "gone")
           (Some (tracked "gone")) None (start healthy) None
           (NotFoundError "ResourceNotFoundException") healthy ltac:(discriminate) eq_refl).
Defined.

Lemma framework_read_null_identity_witness :
  exists resp,
    Read remote_resource {| read_State := tracked "a2"; read_Identity := None |}
      (new_Response (Some (tracked "a2")) None) (start healthy)
    = (Done resp, start healthy)
    /\ map diag_Summary (resp_Diagnostics resp) = ["Value Conversion Error"]
    /\ HasError (resp_Diagnostics resp) = true
    /\ resp_State resp = Some (tracked "a2")
    /\ resp_Identity resp = None.
Proof.
  exact (framework_read_null_identity remote_resource
           {| read_State := tracked "a2"; read_Identity := None |}
           (Some (tracked "a2")) None (start healthy) eq_refl).
Defined.

Lemma framework_update_persists_on_success_witness :
  Update remote_resource {| update_Plan := tracked "a2" |}
    (new_Response (Some (tracked "a1")) None) (start update_failing)
  = (Done {| resp_Diagnostics := [update_error_diagnostic throttled];
             resp_State := Some (tracked "a1"); resp_Identity := None |},
     Build_Env update_failing [CallUpdate (update_input (tracked "a2"))]).
Proof.
  exact (framework_update_persists_on_success remote_resource {| update_Plan := tracked "a2" |}
           (Some (tracked "a1")) None (start update_failing) (None, Some throttled)
           update_failing eq_refl).
Defined.

Lemma earlier_configure_rejects_config_value_witness :
  Earlier.Configure (Earlier.Build_AgentStatusResource None)
    (AwsExtProvider.cr_ResourceData
       (AwsExtProvider.Configure remote_sdk (provider_config "AK" "SK" "" "eu-west-1" "")
          AwsExtProvider.new_ConfigureResponse)) []
  = (Earlier.Build_AgentStatusResource None,
     [NewErrorDiagnostic "Unexpected Resource Configure Type"
        "Expected *aws.Config, got: aws.Config. Please report this issue to the provider developers."]).
Proof.
  exact (earlier_configure_rejects_config_value remote_sdk
           (provider_config "AK" "SK" "" "eu-west-1" "")
           (Earlier.Build_AgentStatusResource None) eq_refl).
Defined.

Lemma earlier_create_single_call_witness :
  calls (snd (Earlier.Create (Earlier.Build_AgentStatusResource (Some remote_client))
                (earlier_lunch "ENABLED") (Earlier.new_Response None) (start healthy)))
  = [CallCreate (Earlier.create_input (earlier_lunch "ENABLED"))]
  /\ cai_State (Earlier.create_input (earlier_lunch "ENABLED")) = "ENABLED"
  /\ cai_DisplayOrder (Earlier.create_input (earlier_lunch "ENABLED")) = None.
Proof.
  pose proof (earlier_create_single_call remote_client (earlier_lunch "ENABLED") None
                (start healthy) _ _ eq_refl) as H.
  destruct H as (Hcalls & Hdisplay & _).
  split; [exact Hcalls | split; [reflexivity | exact Hdisplay]].
Defined.

Lemma earlier_update_single_call_witness :
  Earlier.Update (Earlier.Build_AgentStatusResource (Some remote_client))
    (earlier_lunch "ENABLED") (Earlier.new_Response None) (start update_failing)
  = (Done {| Earlier.resp_Diagnostics := [update_error_diagnostic throttled];
             Earlier.resp_State := None |},
     Build_Env update_failing [CallUpdate (Earlier.update_input (earlier_lunch "ENABLED"))])
  /\ uai_DisplayOrder (Earlier.update_input (earlier_lunch "ENABLED")) = None.
Proof.
  exact (earlier_update_single_call remote_client (earlier_lunch "ENABLED") None
           (start update_failing) (None, Some throttled) update_failing eq_refl).
Defined.
